(** * Marching tetrahedrons: a shallow embedding of
      [include/marching_tetrahedrons.h] and of the traversal loop of
      [src/main.cpp], with the properties of the specification.

    Conventions of the embedding.

    - C++ [float] is kept abstract behind the interface [FloatModel]; the
      program is written once against it.  Two instances are given: exact
      rational arithmetic ([exactQ]), in which the algebraic facts about
      interpolation are proved, and IEEE-754 single precision ([binary32],
      round to nearest even, through [SpecFloat]), in which the program can
      be evaluated bit for bit.
    - [std::vector] is [list]; [push_back] appends at the end; [v[i]] outside
      the bounds is undefined behaviour and is modelled as [None] in the
      option monad.
    - A parameter passed by reference is threaded through the result; a
      parameter passed by value is copied: the function definitions below
      return the final value of the callee's own copy, and the caller keeps
      its variable unchanged. *)

From Stdlib Require Import ZArith QArith Qfield Qround Lia Lqa Bool List String Ascii.
From Stdlib Require Import Floats.SpecFloat.
From stdpp Require Import base decidable option list.

Local Open Scope Z_scope.

(** ** The arithmetic of [float] *)

Class FloatModel : Type := {
  float : Type;
  fadd : float -> float -> float;
  fsub : float -> float -> float;
  fmul : float -> float -> float;
  fdiv : float -> float -> float;
  fltb : float -> float -> bool;      (* operator<  *)
  fleb : float -> float -> bool;      (* operator<= *)
  feqb : float -> float -> bool;      (* operator== *)
  of_int : Z -> float                 (* conversion of an int constant *)
}.

(** Exact arithmetic on rationals: no rounding, no infinities, no NaN. *)
#[export] Instance exactQ : FloatModel := {|
  float := Q;
  fadd := Qplus;
  fsub := Qminus;
  fmul := Qmult;
  fdiv := Qdiv;
  fltb := fun a b => negb (Qle_bool b a);
  fleb := Qle_bool;
  feqb := Qeq_bool;
  of_int := inject_Z
|}.

(** IEEE-754 binary32: 24 bits of precision, infinities at exponent 128. *)
Definition binary32 : FloatModel := {|
  float := spec_float;
  fadd := SFadd 24 128;
  fsub := SFsub 24 128;
  fmul := SFmul 24 128;
  fdiv := SFdiv 24 128;
  fltb := SFltb;
  fleb := SFleb;
  feqb := SFeqb;
  of_int := fun n => binary_normalize 24 128 n 0 false
|}.

(** ** Data model: the structures of [include.h], by the members the code
       uses, parallel vectors of positions and densities. *)

Section Program.
Context {FM : FloatModel}.

(** [cv::Point3f] *)
Record Point3f : Type := mkPoint3f { x : float; y : float; z : float }.

(** [operator==] of [cv::Point3_]: componentwise [==]. *)
Definition Point3f_eqb (a b : Point3f) : bool :=
  feqb (x a) (x b) && feqb (y a) (y b) && feqb (z a) (z b).

Record PointCloud : Type := mkPointCloud {
  pc_vertices : list Point3f;
  pc_density : list float
}.

Record Voxel : Type := mkVoxel {
  vox_vertices : list Point3f;
  vox_density : list float
}.

Record Tetrahedron : Type := mkTetrahedron {
  tet_vertices : list Point3f;
  tet_density : list float
}.

Record Triangle : Type := mkTriangle { tri_vertices : list Point3f }.

(** A default-constructed [Voxel]. *)
Definition empty_voxel : Voxel := mkVoxel [] [].

(** [v[i]] with an [int] index: a negative index, converted to [size_t],
    is far beyond the end of the vector. *)
Definition vec_at {A} (v : list A) (i : Z) : option A :=
  if i <? 0 then None else v !! Z.to_nat i.

(** The threshold is the macro [ISOVALUE] of [parameters.h]: a parameter of
    the development, of type [float] (the type at which [interpolation]
    receives it). *)
Variable ISOVALUE : float.

(** ** [interpolation] *)

(** The local [mu] of [interpolation]. *)
Definition mu (pt1_density pt2_density isovalue : float) : float :=
  fdiv (fsub isovalue pt1_density) (fsub pt2_density pt1_density).

Definition interpolation (pt1 pt2 : Point3f)
    (pt1_density pt2_density isovalue : float) : Point3f :=
  let mu := mu pt1_density pt2_density isovalue in
  let inter_x := fadd (x pt1) (fmul mu (fsub (x pt2) (x pt1))) in
  let inter_y := fadd (y pt1) (fmul mu (fsub (y pt2) (y pt1))) in
  let inter_z := fadd (z pt1) (fmul mu (fsub (z pt2) (z pt1))) in
  mkPoint3f inter_x inter_y inter_z.

(** ** [init_voxel_vertices] *)

(** Lines 76-92: the eight corners, pushed in this order. *)
Definition voxel_corners (cur_x cur_y cur_z diff_x diff_y diff_z : float)
  : list Point3f :=
  let v0 := mkPoint3f cur_x               cur_y               cur_z in
  let v1 := mkPoint3f (fadd cur_x diff_x) cur_y               cur_z in
  let v2 := mkPoint3f (fadd cur_x diff_x) cur_y               (fadd cur_z diff_z) in
  let v3 := mkPoint3f cur_x               cur_y               (fadd cur_z diff_z) in
  let v4 := mkPoint3f cur_x               (fadd cur_y diff_y) cur_z in
  let v5 := mkPoint3f (fadd cur_x diff_x) (fadd cur_y diff_y) cur_z in
  let v6 := mkPoint3f (fadd cur_x diff_x) (fadd cur_y diff_y) (fadd cur_z diff_z) in
  let v7 := mkPoint3f cur_x               (fadd cur_y diff_y) (fadd cur_z diff_z) in
  [v0; v1; v2; v3; v4; v5; v6; v7].

(** [std::find(pointcloud.vertices.begin(), pointcloud.vertices.end(), vertex)]:
    the first position whose element compares equal to [vertex]. *)
Definition find_vertex (pointcloud : PointCloud) (vertex : Point3f)
  : option (nat * Point3f) :=
  list_find (fun p => Point3f_eqb p vertex = true) (pc_vertices pointcloud).

(** Lines 96-105, the body of the loop: the density pushed for one corner. *)
Definition corner_density (pointcloud : PointCloud) (vertex : Point3f)
  : option float :=
  match find_vertex pointcloud vertex with
  | None => Some (of_int 1)
  | Some (i, _) =>
      let idx := Z.of_nat i in
      vec_at (pc_density pointcloud) (idx - 1)
  end.

(** Lines 94-106: the loop over [voxel.vertices], pushing onto
    [voxel.density]. *)
Fixpoint density_loop (pointcloud : PointCloud) (todo : list Point3f)
    (density : list float) : option (list float) :=
  match todo with
  | [] => Some density
  | vertex :: todo' =>
      d ← corner_density pointcloud vertex;
      density_loop pointcloud todo' (density ++ [d])
  end.

(** [voxel] is passed by reference: the result is its final value. *)
Definition init_voxel_vertices (pointcloud : PointCloud) (voxel : Voxel)
    (cur_x cur_y cur_z diff_x diff_y diff_z : float) : option Voxel :=
  let vertices :=
    vox_vertices voxel ++ voxel_corners cur_x cur_y cur_z diff_x diff_y diff_z in
  density ← density_loop pointcloud vertices (vox_density voxel);
  Some (mkVoxel vertices density).

(** ** [divide_into_six_triangles] *)

(** [cur_six_tetrahedrons] is passed by value: the result is the final value
    of the callee's copy. *)
Definition divide_into_six_triangles (cur_voxel : Voxel)
    (cur_six_tetrahedrons : list Tetrahedron) : option (list Tetrahedron) :=
  let vertices := vox_vertices cur_voxel in
  let density := vox_density cur_voxel in
  (* Tetrahedron 1: p0 = v3 / p1 = v7 / p2 = v4 / p3 = v5 *)
  a0 ← vertices !! 3%nat; b0 ← density !! 3%nat;
  a1 ← vertices !! 7%nat; b1 ← density !! 7%nat;
  a2 ← vertices !! 4%nat; b2 ← density !! 4%nat;
  a3 ← vertices !! 5%nat; b3 ← density !! 5%nat;
  let t1 := mkTetrahedron [a0; a1; a2; a3] [b0; b1; b2; b3] in
  let cur_six_tetrahedrons := cur_six_tetrahedrons ++ [t1] in
  (* Tetrahedron 2: p0 = v3 / p1 = v7 / p2 = v5 / p3 = v6 *)
  a0 ← vertices !! 3%nat; b0 ← density !! 3%nat;
  a1 ← vertices !! 7%nat; b1 ← density !! 7%nat;
  a2 ← vertices !! 5%nat; b2 ← density !! 5%nat;
  a3 ← vertices !! 6%nat; b3 ← density !! 6%nat;
  let t2 := mkTetrahedron [a0; a1; a2; a3] [b0; b1; b2; b3] in
  let cur_six_tetrahedrons := cur_six_tetrahedrons ++ [t2] in
  (* Tetrahedron 3: p0 = v3 / p1 = v5 / p2 = v4 / p3 = v0 *)
  a0 ← vertices !! 3%nat; b0 ← density !! 3%nat;
  a1 ← vertices !! 5%nat; b1 ← density !! 5%nat;
  a2 ← vertices !! 4%nat; b2 ← density !! 4%nat;
  a3 ← vertices !! 0%nat; b3 ← density !! 0%nat;
  let t3 := mkTetrahedron [a0; a1; a2; a3] [b0; b1; b2; b3] in
  let cur_six_tetrahedrons := cur_six_tetrahedrons ++ [t3] in
  (* Tetrahedron 4: p0 = v5 / p1 = v1 / p2 = v0 / p3 = v3 *)
  a0 ← vertices !! 5%nat; b0 ← density !! 5%nat;
  a1 ← vertices !! 1%nat; b1 ← density !! 1%nat;
  a2 ← vertices !! 0%nat; b2 ← density !! 0%nat;
  a3 ← vertices !! 3%nat; b3 ← density !! 3%nat;
  let t4 := mkTetrahedron [a0; a1; a2; a3] [b0; b1; b2; b3] in
  let cur_six_tetrahedrons := cur_six_tetrahedrons ++ [t4] in
  (* Tetrahedron 5: p0 = v5 / p1 = v1 / p2 = v3 / p3 = v2 *)
  a0 ← vertices !! 5%nat; b0 ← density !! 5%nat;
  a1 ← vertices !! 1%nat; b1 ← density !! 1%nat;
  a2 ← vertices !! 3%nat; b2 ← density !! 3%nat;
  a3 ← vertices !! 2%nat; b3 ← density !! 2%nat;
  let t5 := mkTetrahedron [a0; a1; a2; a3] [b0; b1; b2; b3] in
  let cur_six_tetrahedrons := cur_six_tetrahedrons ++ [t5] in
  (* Tetrahedron 6: p0 = v3 / p1 = v5 / p2 = v2 / p3 = v6 *)
  a0 ← vertices !! 3%nat; b0 ← density !! 3%nat;
  a1 ← vertices !! 5%nat; b1 ← density !! 5%nat;
  a2 ← vertices !! 2%nat; b2 ← density !! 2%nat;
  a3 ← vertices !! 6%nat; b3 ← density !! 6%nat;
  let t6 := mkTetrahedron [a0; a1; a2; a3] [b0; b1; b2; b3] in
  let cur_six_tetrahedrons := cur_six_tetrahedrons ++ [t6] in
  Some cur_six_tetrahedrons.

(** ** [get_vertice_density] *)

(** Lines 205-237: the value given to the local [vertices_density], by the
    four flags, in the order of the chain of conditions. *)
Definition vertices_density (p0_value p1_value p2_value p3_value : bool)
  : list Z :=
  match p0_value, p1_value, p2_value, p3_value with
  | false, false, false, false => [0; 0; 0; 0; 0; 0]
  | false, false, false, true  => [0; 0; 1; 0; 1; 1]
  | false, false, true,  false => [0; 1; 0; 1; 1; 0]
  | false, false, true,  true  => [0; 1; 1; 1; 0; 1]
  | false, true,  false, false => [1; 0; 0; 1; 0; 1]
  | false, true,  false, true  => [1; 0; 1; 1; 1; 0]
  | false, true,  true,  false => [1; 1; 0; 0; 1; 1]
  | false, true,  true,  true  => [1; 1; 1; 0; 0; 0]
  | true,  false, false, false => [1; 1; 1; 0; 0; 0]
  | true,  false, false, true  => [1; 1; 0; 0; 1; 1]
  | true,  false, true,  false => [1; 0; 1; 1; 1; 0]
  | true,  false, true,  true  => [1; 0; 0; 1; 0; 1]
  | true,  true,  false, false => [0; 1; 1; 1; 0; 1]
  | true,  true,  false, true  => [0; 1; 0; 1; 1; 0]
  | true,  true,  true,  false => [0; 0; 1; 0; 1; 1]
  | true,  true,  true,  true  => [0; 0; 0; 0; 0; 0]
  end.

(** Lines 189-239: one turn of the loop, the array pushed for one
    tetrahedron. *)
Definition tetrahedron_rule (cur_tetrahedron : Tetrahedron) : option (list Z) :=
  d0 ← tet_density cur_tetrahedron !! 0%nat;
  d1 ← tet_density cur_tetrahedron !! 1%nat;
  d2 ← tet_density cur_tetrahedron !! 2%nat;
  d3 ← tet_density cur_tetrahedron !! 3%nat;
  let p0_value := fltb d0 ISOVALUE in
  let p1_value := fltb d1 ISOVALUE in
  let p2_value := fltb d2 ISOVALUE in
  let p3_value := fltb d3 ISOVALUE in
  Some (vertices_density p0_value p1_value p2_value p3_value).

Fixpoint rule_loop (todo : list Tetrahedron) (cur_six_edges_rule : list (list Z))
  : option (list (list Z)) :=
  match todo with
  | [] => Some cur_six_edges_rule
  | cur_tetrahedron :: todo' =>
      r ← tetrahedron_rule cur_tetrahedron;
      rule_loop todo' (cur_six_edges_rule ++ [r])
  end.

(** [cur_six_edges_rule] is passed by value: the result is the final value
    of the callee's copy. *)
Definition get_vertice_density (cur_six_tetrahedrons : list Tetrahedron)
    (cur_six_edges_rule : list (list Z)) : option (list (list Z)) :=
  rule_loop cur_six_tetrahedrons cur_six_edges_rule.

(** ** [make_triangle] *)

(** One call of [interpolation], by its arguments. *)
Record InterpCall : Type := mkCall {
  call_pt1 : Point3f;
  call_pt2 : Point3f;
  call_d1 : float;
  call_d2 : float;
  call_iso : float
}.

Definition run_call (c : InterpCall) : Point3f :=
  interpolation (call_pt1 c) (call_pt2 c) (call_d1 c) (call_d2 c) (call_iso c).

(** Lines 249-254: the six calls made for one tetrahedron, in the order
    p01, p02, p03, p12, p23, p31.  They come before any look at the rule. *)
Definition edge_calls (cur_tetra : Tetrahedron) : option (list InterpCall) :=
  v0 ← tet_vertices cur_tetra !! 0%nat;
  v1 ← tet_vertices cur_tetra !! 1%nat;
  v2 ← tet_vertices cur_tetra !! 2%nat;
  v3 ← tet_vertices cur_tetra !! 3%nat;
  d0 ← tet_density cur_tetra !! 0%nat;
  d1 ← tet_density cur_tetra !! 1%nat;
  d2 ← tet_density cur_tetra !! 2%nat;
  d3 ← tet_density cur_tetra !! 3%nat;
  Some [ mkCall v0 v1 d0 d1 ISOVALUE;
         mkCall v0 v2 d0 d2 ISOVALUE;
         mkCall v0 v3 d0 d3 ISOVALUE;
         mkCall v1 v2 d1 d2 ISOVALUE;
         mkCall v2 v3 d2 d3 ISOVALUE;
         mkCall v3 v1 d3 d1 ISOVALUE ].

(** The six interpolated points of one tetrahedron. *)
Record EdgePoints : Type := mkEdgePoints {
  p01 : Point3f; p02 : Point3f; p03 : Point3f;
  p12 : Point3f; p23 : Point3f; p31 : Point3f
}.

Definition edge_points (cur_tetra : Tetrahedron) : option EdgePoints :=
  calls ← edge_calls cur_tetra;
  match map run_call calls with
  | [p01; p02; p03; p12; p23; p31] => Some (mkEdgePoints p01 p02 p03 p12 p23 p31)
  | _ => None
  end.

(** Lines 256-323: the triangles pushed for one rule, in the order of the
    chain of comparisons; a rule equal to none of the eight arrays pushes
    nothing. *)
Definition rule_triangles (pts : EdgePoints) (rule : list Z) : list Triangle :=
  if decide (rule = [0; 0; 0; 0; 0; 0]) then []
  else if decide (rule = [0; 0; 1; 0; 1; 1]) then
    [mkTriangle [p03 pts; p23 pts; p31 pts]]
  else if decide (rule = [0; 1; 0; 1; 1; 0]) then
    [mkTriangle [p02 pts; p12 pts; p23 pts]]
  else if decide (rule = [0; 1; 1; 1; 0; 1]) then
    [mkTriangle [p02 pts; p03 pts; p31 pts];
     mkTriangle [p02 pts; p31 pts; p12 pts]]
  else if decide (rule = [1; 0; 0; 1; 0; 1]) then
    [mkTriangle [p01 pts; p12 pts; p31 pts]]
  else if decide (rule = [1; 0; 1; 1; 1; 0]) then
    [mkTriangle [p01 pts; p03 pts; p23 pts];
     mkTriangle [p01 pts; p12 pts; p23 pts]]
  else if decide (rule = [1; 1; 0; 0; 1; 1]) then
    [mkTriangle [p01 pts; p02 pts; p31 pts];
     mkTriangle [p02 pts; p23 pts; p31 pts]]
  else if decide (rule = [1; 1; 1; 0; 0; 0]) then
    [mkTriangle [p01 pts; p02 pts; p03 pts]]
  else [].

(** Lines 245-324: the loop, [t] being the index of the head of [todo]. *)
Fixpoint triangle_loop (todo : list Tetrahedron) (t : nat)
    (cur_six_edges_rule : list (list Z)) (triangles : list Triangle)
  : option (list Triangle) :=
  match todo with
  | [] => Some triangles
  | cur_tetra :: todo' =>
      pts ← edge_points cur_tetra;
      rule ← cur_six_edges_rule !! t;
      triangle_loop todo' (S t) cur_six_edges_rule
                    (triangles ++ rule_triangles pts rule)
  end.

(** [triangles] is passed by value: the result is the final value of the
    callee's copy. *)
Definition make_triangle (triangles : list Triangle)
    (cur_six_tetrahedrons : list Tetrahedron)
    (cur_six_edges_rule : list (list Z)) : option (list Triangle) :=
  triangle_loop cur_six_tetrahedrons 0 cur_six_edges_rule triangles.

(** ** The traversal of [main] *)

(** Lines 60-74, the body of the innermost loop.  [cur_voxel] goes to
    [init_voxel_vertices] by reference and comes back filled; the three
    other calls receive copies of [cur_six_tetrahedrons],
    [cur_six_edges_rule] and [triangles], whose final values are lost when
    the callee returns. *)
Definition cell_body (pointcloud_with_density : PointCloud)
    (voxel_dx voxel_dy voxel_dz : float) (x y z : float)
    (triangles : list Triangle) : option (list Triangle) :=
  let cur_voxel := empty_voxel in
  cur_voxel ← init_voxel_vertices pointcloud_with_density cur_voxel
                                  x y z voxel_dx voxel_dy voxel_dz;
  let cur_six_tetrahedrons : list Tetrahedron := [] in
  _ ← divide_into_six_triangles cur_voxel cur_six_tetrahedrons;
  let cur_six_edges_rule : list (list Z) := [] in
  _ ← get_vertice_density cur_six_tetrahedrons cur_six_edges_rule;
  _ ← make_triangle triangles cur_six_tetrahedrons cur_six_edges_rule;
  Some triangles.

(** [for (float v = from; v <= to; v += step) body], on a state [S].  The
    loop need not end ([step] may be zero); [fuel] bounds the number of
    tests of the condition, and [None] is also the answer when it runs out. *)
Fixpoint for_float {S : Type} (fuel : nat) (v to step : float)
    (body : float -> S -> option S) (s : S) : option S :=
  match fuel with
  | O => None
  | Datatypes.S fuel' =>
      if fleb v to then
        s' ← body v s;
        for_float fuel' (fadd v step) to step body s'
      else Some s
  end.

(** Lines 53-77 of [main]: the final value of [triangles].  The bounding box
    and the cell size, which [main] gets from the helpers of [utility.h],
    are arguments. *)
Definition marching (fuel : nat) (pointcloud_with_density : PointCloud)
    (min_x min_y min_z max_x max_y max_z voxel_dx voxel_dy voxel_dz : float)
  : option (list Triangle) :=
  let triangles : list Triangle := [] in
  for_float fuel (fsub min_z voxel_dz) max_z voxel_dz (fun z triangles =>
    for_float fuel (fsub min_y voxel_dy) max_y voxel_dy (fun y triangles =>
      for_float fuel (fsub min_x voxel_dx) max_x voxel_dx (fun x triangles =>
        cell_body pointcloud_with_density voxel_dx voxel_dy voxel_dz
                  x y z triangles)
      triangles)
    triangles)
  triangles.

End Program.

Arguments mkPoint3f {FM} _ _ _.
Arguments mkEdgePoints {FM} _ _ _ _ _ _.

(** ** The tables of the specification, as the specification writes them *)

Module Spec.

Local Open Scope string_scope.

(** The case table of section 4.3: inside pattern of p0 p1 p2 p3, then the
    mask over the edges p0p1, p0p2, p0p3, p1p2, p2p3, p3p1. *)
Definition case_table : list (string * string) :=
  [ ("FFFF", "000000"); ("FFFT", "001011"); ("FFTF", "010110"); ("FFTT", "011101");
    ("FTFF", "100101"); ("FTFT", "101110"); ("FTTF", "110011"); ("FTTT", "111000");
    ("TFFF", "111000"); ("TFFT", "110011"); ("TFTF", "101110"); ("TFTT", "100101");
    ("TTFF", "011101"); ("TTFT", "010110"); ("TTTF", "001011"); ("TTTT", "000000") ].

Definition letter (b : bool) : ascii := if b then "T"%char else "F"%char.

Definition pattern (p0 p1 p2 p3 : bool) : string :=
  String (letter p0) (String (letter p1) (String (letter p2)
    (String (letter p3) EmptyString))).

Definition digit (c : ascii) : Z := if Ascii.eqb c "1"%char then 1 else 0.

Definition mask_of (s : string) : list Z := map digit (list_ascii_of_string s).

Fixpoint assoc {V} (k : string) (t : list (string * V)) : option V :=
  match t with
  | [] => None
  | (k', v) :: t' => if String.eqb k k' then Some v else assoc k t'
  end.

(** The mask the table gives to an inside pattern. *)
Definition case_mask (p0 p1 p2 p3 : bool) : option (list Z) :=
  mask_of <$> assoc (pattern p0 p1 p2 p3) case_table.

(** The names of the six edge points. *)
Inductive Edge : Set := P01 | P02 | P03 | P12 | P23 | P31.

(** The recipe of section 4.4: mask, then the triangles by edge point. *)
Definition recipe : list (string * list (Edge * Edge * Edge)) :=
  [ ("000000", []);
    ("001011", [(P03, P23, P31)]);
    ("010110", [(P02, P12, P23)]);
    ("011101", [(P02, P03, P31); (P02, P31, P12)]);
    ("100101", [(P01, P12, P31)]);
    ("101110", [(P01, P03, P23); (P01, P12, P23)]);
    ("110011", [(P01, P02, P31); (P02, P23, P31)]);
    ("111000", [(P01, P02, P03)]) ].

(** The eight masks of the recipe, and the number of triangles of each. *)
Definition masks : list (list Z) := map (fun e => mask_of (fst e)) recipe.


(** Position of an edge in the mask. *)
Definition edge_index (e : Edge) : nat :=
  match e with
  | P01 => 0 | P02 => 1 | P03 => 2 | P12 => 3 | P23 => 4 | P31 => 5
  end%nat.

(** The decomposition of section 3: corner indices for (p0, p1, p2, p3). *)
Definition decomposition : list (nat * nat * nat * nat) :=
  [ (3, 7, 4, 5); (3, 7, 5, 6); (3, 5, 4, 0);
    (5, 1, 0, 3); (5, 1, 3, 2); (3, 5, 2, 6) ]%nat.

End Spec.

Section SpecOnProgram.
Context {FM : FloatModel}.




(** The tetrahedron section 3 builds from four corner indices. *)
Definition spec_tetrahedron (voxel : Voxel) (ix : nat * nat * nat * nat)
  : option Tetrahedron :=
  let '(i0, i1, i2, i3) := ix in
  vs ← mapM (fun i => vox_vertices voxel !! i) [i0; i1; i2; i3];
  ds ← mapM (fun i => vox_density voxel !! i) [i0; i1; i2; i3];
  Some (mkTetrahedron vs ds).

Definition spec_tetrahedra (voxel : Voxel) : option (list Tetrahedron) :=
  mapM (spec_tetrahedron voxel) Spec.decomposition.

(** The corner layout of section 3. *)
Definition spec_corners (x y z dx dy dz : float) : list Point3f :=
  [ mkPoint3f x y z;
    mkPoint3f (fadd x dx) y z;
    mkPoint3f (fadd x dx) y (fadd z dz);
    mkPoint3f x y (fadd z dz);
    mkPoint3f x (fadd y dy) z;
    mkPoint3f (fadd x dx) (fadd y dy) z;
    mkPoint3f (fadd x dx) (fadd y dy) (fadd z dz);
    mkPoint3f x (fadd y dy) (fadd z dz) ].

(** A tetrahedron given by its four positions and four densities. *)
Definition tetra (v0 v1 v2 v3 : Point3f) (d0 d1 d2 d3 : float) : Tetrahedron :=
  mkTetrahedron [v0; v1; v2; v3] [d0; d1; d2; d3].

Section OnThreshold.
Variable ISOVALUE : float.

(** The flags of a tetrahedron: density < isovalue, for p0..p3. *)
Definition inside (t : Tetrahedron) : option (bool * bool * bool * bool) :=
  match tet_density t with
  | d0 :: d1 :: d2 :: d3 :: _ =>
      Some (fltb d0 ISOVALUE, fltb d1 ISOVALUE, fltb d2 ISOVALUE, fltb d3 ISOVALUE)
  | _ => None
  end.

(** The mask section 4.3 gives to a tetrahedron. *)
Definition table_rule (t : Tetrahedron) : option (list Z) :=
  '(p0, p1, p2, p3) ← inside t; Spec.case_mask p0 p1 p2 p3.

(** The triangles [make_triangle] pushes for a tetrahedron and its rule. *)
Definition pair_triangles (tr : Tetrahedron * list Z) : option (list Triangle) :=
  pts ← edge_points ISOVALUE tr.1; Some (rule_triangles pts tr.2).

(** The data flow of section 2 for one cell: each stage receives what the
    stage before it has produced. *)
Definition threaded_cell (pointcloud : PointCloud) (dx dy dz x y z : float)
    (triangles : list Triangle) : option (list Triangle) :=
  voxel ← init_voxel_vertices pointcloud empty_voxel x y z dx dy dz;
  tets ← divide_into_six_triangles voxel [];
  rules ← get_vertice_density ISOVALUE tets [];
  make_triangle ISOVALUE triangles tets rules.


End OnThreshold.

End SpecOnProgram.

(** ** Concrete inputs *)

Section Fixtures.
Context {FM : FloatModel}.
Variable half : float.

Definition origin : Point3f := mkPoint3f (of_int 0) (of_int 0) (of_int 0).
Definition centre : Point3f := mkPoint3f half half half.

(** Two samples: one in the middle of the unit cell, which no corner of the
    traversal meets, and one at the origin; densities [d0] and [d1]. *)
Definition two_samples (d0 d1 : float) : PointCloud :=
  mkPointCloud [centre; origin] [d0; d1].

(** A single sample, at the origin. *)
Definition one_sample (d : float) : PointCloud :=
  mkPointCloud [origin] [d].

(** The cell at the origin of a field of two samples of density 0, with the
    threshold one half: only its corner v0 is below the threshold.  What the
    stages produce when chained (two triangles, those of the third and
    fourth tetrahedra, the two that hold v0), what the body of the loop of
    [main] leaves in [triangles], and what the whole traversal of the
    bounding box [0, 1/2]^3 leaves in it. *)
Definition one_corner_scenario : Prop :=
  let zero := of_int 0 in
  let one := of_int 1 in
  let pc := two_samples zero zero in
  vox_density <$> init_voxel_vertices pc empty_voxel zero zero zero one one one
    = Some [zero; one; one; one; one; one; one; one] ∧
  map (fun d => fltb d half) [zero; one; one; one; one; one; one; one]
    = [true; false; false; false; false; false; false; false] ∧
  length <$> threaded_cell half pc one one one zero zero zero [] = Some 2%nat ∧
  threaded_cell half pc one one one zero zero zero [] =
    (voxel ← init_voxel_vertices pc empty_voxel zero zero zero one one one;
     tets ← divide_into_six_triangles voxel [];
     t3 ← tets !! 2%nat;
     t4 ← tets !! 3%nat;
     rules ← get_vertice_density half [t3; t4] [];
     make_triangle half [] [t3; t4] rules) ∧
  cell_body half pc one one one zero zero zero [] = Some [] ∧
  marching half 3 pc zero zero zero half half half one one one = Some [].

End Fixtures.

(** One half in binary32: 2^23 * 2^-24. *)
Definition half32 : @float binary32 := S754_finite false 8388608 (-24).
Definition halfQ : @float exactQ := 1 # 2.

(** ** Notions for the further properties *)

(** The two ends of an edge, as positions among p0..p3: the edge p31 goes
    from p3 to p1. *)
Definition endpoints (e : Spec.Edge) : nat * nat :=
  match e with
  | Spec.P01 => (0, 1) | Spec.P02 => (0, 2) | Spec.P03 => (0, 3)
  | Spec.P12 => (1, 2) | Spec.P23 => (2, 3) | Spec.P31 => (3, 1)
  end%nat.

(** How many of four flags are set. *)
Definition inside_count (p0 p1 p2 p3 : bool) : nat :=
  length (filter (λ b : bool, b = true) [p0; p1; p2; p3]).

(** Triangles of a tetrahedron by the number of its corners below the
    threshold. *)
Definition triangles_for (n : nat) : nat :=
  match n with
  | 1 | 3 => 1
  | 2 => 2
  | _ => 0
  end%nat.

(** Six times the signed volume of a tetrahedron of rational corners: the
    determinant of p1 - p0, p2 - p0, p3 - p0. *)
Definition det3 (a b c : @Point3f exactQ) : Q :=
  (x a * (y b * z c - z b * y c)
   - y a * (x b * z c - z b * x c)
   + z a * (x b * y c - y b * x c))%Q.

Definition minus3 (a b : @Point3f exactQ) : @Point3f exactQ :=
  mkPoint3f (x a - x b)%Q (y a - y b)%Q (z a - z b)%Q.

Definition volume6 (t : @Tetrahedron exactQ) : option Q :=
  match tet_vertices t with
  | [q0; q1; q2; q3] => Some (det3 (minus3 q1 q0) (minus3 q2 q0) (minus3 q3 q0))
  | _ => None
  end.

(** The stages of one cell from a voxel on, each receiving what the stage
    before it has produced. *)
Definition threaded_stages {FM : FloatModel} (ISOVALUE : float) (voxel : Voxel)
    (triangles : list Triangle) : option (list Triangle) :=
  tets ← divide_into_six_triangles voxel [];
  rules ← get_vertice_density ISOVALUE tets [];
  make_triangle ISOVALUE triangles tets rules.

(** The origins that a loop of [main] visits on one axis, in exact
    arithmetic: the first is [from], each next one adds [step]. *)
Definition visited (from step : Q) (k : nat) : Q :=
  Nat.iter k (λ v, @fadd exactQ v step) from.

(** The rational number that a binary32 value stands for; an infinity and
    NaN stand for none. *)
Definition value32 (f : spec_float) : option Q :=
  match f with
  | S754_zero _ => Some 0%Q
  | S754_finite s m e =>
      Some (inject_Z (if s then Z.neg m else Z.pos m) * Qpower 2 e)%Q
  | S754_infinity _ | S754_nan => None
  end.

(** [r] stands for the middle of the numbers [a] and [b] stand for. *)
Definition exact_midpoint32 (a b r : spec_float) : Prop :=
  match value32 a, value32 b, value32 r with
  | Some qa, Some qb, Some qr => (qr == (qa + qb) / 2)%Q
  | _, _, _ => False
  end.

(** * Properties *)

(** ** Loops as maps *)

Section Loops.
Context {FM : FloatModel}.
Variable ISOVALUE : float.

Lemma density_loop_mapM (pc : PointCloud) (todo : list Point3f) (density : list float) :
  density_loop pc todo density =
    (ds ← mapM (corner_density pc) todo; Some (density ++ ds)).
Proof.
  revert density. induction todo as [|v todo IH]; intros density; simpl.
  - by rewrite app_nil_r.
  - destruct (corner_density pc v) as [d|]; simpl; [|done].
    rewrite IH. destruct (mapM (corner_density pc) todo) as [ds|]; simpl; [|done].
    by rewrite <- app_assoc.
Qed.

Lemma rule_loop_mapM (todo : list Tetrahedron) (rules : list (list Z)) :
  rule_loop ISOVALUE todo rules =
    (rs ← mapM (tetrahedron_rule ISOVALUE) todo; Some (rules ++ rs)).
Proof.
  revert rules. induction todo as [|t todo IH]; intros rules; simpl.
  - by rewrite app_nil_r.
  - destruct (tetrahedron_rule ISOVALUE t) as [r|]; simpl; [|done].
    rewrite IH. destruct (mapM (tetrahedron_rule ISOVALUE) todo) as [rs|]; simpl; [|done].
    by rewrite <- app_assoc.
Qed.

Lemma init_voxel_vertices_fresh (pc : PointCloud) (cx cy cz dx dy dz : float) :
  init_voxel_vertices pc empty_voxel cx cy cz dx dy dz =
    (density ← mapM (corner_density pc) (voxel_corners cx cy cz dx dy dz);
     Some (mkVoxel (voxel_corners cx cy cz dx dy dz) density)).
Proof.
  unfold init_voxel_vertices. cbn [vox_vertices vox_density empty_voxel app].
  rewrite density_loop_mapM.
  by destruct (mapM (corner_density pc) _).
Qed.

End Loops.

(** ** The Voxel Builder *)

Section VoxelBuilder.
Context {FM : FloatModel}.

(** C9: the eight corners are pushed in the layout of section 3, and a voxel
    that [init_voxel_vertices] fills from scratch holds exactly these eight
    positions, with eight densities. *)
Theorem C9_corner_layout (pc : PointCloud) (cx cy cz dx dy dz : float) :
  voxel_corners cx cy cz dx dy dz = spec_corners cx cy cz dx dy dz ∧
  length (voxel_corners cx cy cz dx dy dz) = 8%nat ∧
  init_voxel_vertices pc empty_voxel cx cy cz dx dy dz =
    (density ← mapM (corner_density pc) (spec_corners cx cy cz dx dy dz);
     Some (mkVoxel (spec_corners cx cy cz dx dy dz) density)) ∧
  (∀ voxel, init_voxel_vertices pc empty_voxel cx cy cz dx dy dz = Some voxel →
     vox_vertices voxel = spec_corners cx cy cz dx dy dz ∧
     length (vox_density voxel) = 8%nat).
Proof.
  split_and!; [done | done | apply init_voxel_vertices_fresh |].
  intros voxel. rewrite init_voxel_vertices_fresh.
  destruct (mapM _ _) as [ds|] eqn:Hds; simpl; [|done].
  intros [= <-]. split; [done|]. simpl.
  apply length_mapM in Hds. by rewrite <- Hds.
Qed.

(** What [std::find] answers, by the positions of the field. *)
Lemma find_vertex_first (pc : PointCloud) (vertex p : Point3f) (i : nat) :
  pc_vertices pc !! i = Some p →
  Point3f_eqb p vertex = true →
  (∀ j q, pc_vertices pc !! j = Some q → (j < i)%nat → Point3f_eqb q vertex = false) →
  find_vertex pc vertex = Some (i, p).
Proof.
  intros Hi Hp Hfirst. unfold find_vertex. apply list_find_Some.
  split_and!; [done..|]. intros j q Hj Hlt. rewrite (Hfirst j q Hj Hlt). done.
Qed.

Lemma find_vertex_none (pc : PointCloud) (vertex : Point3f) :
  (∀ j q, pc_vertices pc !! j = Some q → Point3f_eqb q vertex = false) →
  find_vertex pc vertex = None.
Proof.
  intros Hno. unfold find_vertex. apply list_find_None, Forall_lookup.
  intros j q Hj. rewrite (Hno j q Hj). done.
Qed.

(** The part of the lookup that has no off-by-one: a corner that no sample
    equals is given the density 1. *)
Lemma corner_density_no_sample (pc : PointCloud) (vertex : Point3f) :
  (∀ j q, pc_vertices pc !! j = Some q → Point3f_eqb q vertex = false) →
  corner_density pc vertex = Some (of_int 1).
Proof. intros Hno. unfold corner_density. by rewrite find_vertex_none. Qed.

(** C10: when the corner equals the sample of index [i] (the first such),
    the density read is the one of index [i - 1]: nothing at all for the
    first sample, the density of the sample before for the others. *)
Theorem C10_density_index_minus_one
    (pc : PointCloud) (vertex p : Point3f) (i : nat) :
  pc_vertices pc !! i = Some p →
  Point3f_eqb p vertex = true →
  (∀ j q, pc_vertices pc !! j = Some q → (j < i)%nat → Point3f_eqb q vertex = false) →
  corner_density pc vertex = vec_at (pc_density pc) (Z.of_nat i - 1) ∧
  (i = 0%nat → corner_density pc vertex = None) ∧
  (∀ k, i = S k → corner_density pc vertex = pc_density pc !! k).
Proof.
  intros Hi Hp Hfirst.
  assert (Hcd : corner_density pc vertex = vec_at (pc_density pc) (Z.of_nat i - 1)).
  { unfold corner_density. by rewrite (find_vertex_first pc vertex p i). }
  split_and!; [done | |].
  - intros ->. rewrite Hcd. done.
  - intros k ->. rewrite Hcd. unfold vec_at.
    destruct (Z.ltb_spec (Z.of_nat (S k) - 1) 0) as [Hneg|_]; [lia|].
    f_equal. lia.
Qed.

End VoxelBuilder.

(** The first sample of the field is at the origin and so is the corner:
    index -1 is read, and the density 0 of the sample is not found. *)
Lemma C10_witness :
  pc_density (@one_sample exactQ 0%Q) !! 0%nat = Some 0%Q ∧
  corner_density (@one_sample exactQ 0%Q) origin
    = vec_at (pc_density (@one_sample exactQ 0%Q)) (-1) ∧
  corner_density (@one_sample exactQ 0%Q) origin = None.
Proof.
  split; [reflexivity|].
  destruct (C10_density_index_minus_one (@one_sample exactQ 0%Q) origin origin 0)
    as (Hread & Hfirst & _).
  - reflexivity.
  - reflexivity.
  - intros j q _ Hj. lia.
  - split; [exact Hread | exact (Hfirst eq_refl)].
Defined.

Lemma C9_witness :
  ∃ voxel,
    init_voxel_vertices (two_samples halfQ 0%Q 0%Q) empty_voxel
      0%Q 0%Q 0%Q 1%Q 1%Q 1%Q = Some voxel ∧
    vox_vertices voxel = spec_corners 0%Q 0%Q 0%Q 1%Q 1%Q 1%Q ∧
    length (vox_density voxel) = 8%nat.
Proof.
  destruct (init_voxel_vertices (two_samples halfQ 0%Q 0%Q) empty_voxel
              0%Q 0%Q 0%Q 1%Q 1%Q 1%Q) as [voxel|] eqn:Hinit;
    [|vm_compute in Hinit; discriminate].
  exists voxel. split; [reflexivity|].
  destruct (C9_corner_layout (two_samples halfQ 0%Q 0%Q) 0%Q 0%Q 0%Q 1%Q 1%Q 1%Q)
    as (_ & _ & _ & Hfilled).
  exact (Hfilled voxel Hinit).
Defined.

(** C4, at a failing input.  The field holds a sample off the lattice with
    density 0, then a sample at the origin with density 1.  The corner v0 of
    the cell at the origin equals the second sample, whose density is 1; the
    density it is given is 0, the one of the sample before.  The seven other
    corners equal no sample and are given 1. *)
Theorem C4_matched_corner_gets_previous_density :
  (pc_vertices (two_samples halfQ 0%Q 1%Q) !! 1%nat = Some (@origin exactQ) ∧
   pc_density (two_samples halfQ 0%Q 1%Q) !! 1%nat = Some 1%Q ∧
   vox_density <$> init_voxel_vertices (two_samples halfQ 0%Q 1%Q) empty_voxel
                     0%Q 0%Q 0%Q 1%Q 1%Q 1%Q
     = Some [0%Q; 1%Q; 1%Q; 1%Q; 1%Q; 1%Q; 1%Q; 1%Q]) ∧
  (let zero := @of_int binary32 0 in
   let one := @of_int binary32 1 in
   pc_vertices (two_samples half32 zero one) !! 1%nat = Some (@origin binary32) ∧
   pc_density (two_samples half32 zero one) !! 1%nat = Some one ∧
   vox_density <$> init_voxel_vertices (two_samples half32 zero one) empty_voxel
                     zero zero zero one one one
     = Some [zero; one; one; one; one; one; one; one]).
Proof. split; split_and!; reflexivity. Qed.

(** ** The Tetrahedral Decomposer *)

Section Decomposer.
Context {FM : FloatModel}.

Local Ltac split_vector v :=
  destruct v as [|? [|? [|? [|? [|? [|? [|? [|? ?]]]]]]]].

(** On every voxel, with eight corners or not, the function and the table
    of section 3 agree. *)
Lemma divide_into_six_triangles_table (voxel : Voxel) (acc : list Tetrahedron) :
  divide_into_six_triangles voxel acc =
    (ts ← spec_tetrahedra voxel; Some (acc ++ ts)).
Proof.
  destruct voxel as [vs ds].
  split_vector vs; try reflexivity;
    split_vector ds; try reflexivity;
    cbn; by rewrite <- !app_assoc.
Qed.

(** A voxel that [init_voxel_vertices] has filled from scratch has its
    eight corners, and the decomposition of it is defined. *)
Lemma divide_after_init (pc : PointCloud) (cx cy cz dx dy dz : float)
    (voxel : Voxel) (acc : list Tetrahedron) :
  init_voxel_vertices pc empty_voxel cx cy cz dx dy dz = Some voxel →
  ∃ six, divide_into_six_triangles voxel acc = Some (acc ++ six) ∧
         length six = 6%nat.
Proof.
  rewrite init_voxel_vertices_fresh.
  destruct (mapM _ _) as [ds|] eqn:Hds; [|done].
  apply length_mapM in Hds. intros [= <-].
  destruct ds as [|e0 [|e1 [|e2 [|e3 [|e4 [|e5 [|e6 [|e7 [|e8 ds]]]]]]]]];
    try discriminate.
  rewrite divide_into_six_triangles_table.
  eexists. split; reflexivity.
Qed.

(** C5: every voxel is cut as the table of section 3 says; a voxel of
    corners v0..v7 with densities d0..d7 gives the six tetrahedra
    (3,7,4,5), (3,7,5,6), (3,5,4,0), (5,1,0,3), (5,1,3,2), (3,5,2,6),
    pushed in this order after what the sequence held. *)
Theorem C5_six_tetrahedra
    (v0 v1 v2 v3 v4 v5 v6 v7 : Point3f) (d0 d1 d2 d3 d4 d5 d6 d7 : float)
    (acc : list Tetrahedron) :
  let voxel := mkVoxel [v0; v1; v2; v3; v4; v5; v6; v7]
                       [d0; d1; d2; d3; d4; d5; d6; d7] in
  let six := [ tetra v3 v7 v4 v5 d3 d7 d4 d5;
               tetra v3 v7 v5 v6 d3 d7 d5 d6;
               tetra v3 v5 v4 v0 d3 d5 d4 d0;
               tetra v5 v1 v0 v3 d5 d1 d0 d3;
               tetra v5 v1 v3 v2 d5 d1 d3 d2;
               tetra v3 v5 v2 v6 d3 d5 d2 d6 ] in
  divide_into_six_triangles voxel acc = Some (acc ++ six) ∧
  spec_tetrahedra voxel = Some six ∧
  length six = 6%nat ∧
  (∀ any : Voxel,
     divide_into_six_triangles any acc =
       (ts ← spec_tetrahedra any; Some (acc ++ ts))).
Proof.
  cbn zeta. split_and!; [|reflexivity..|].
  - cbn. by rewrite <- !app_assoc.
  - intros any. apply divide_into_six_triangles_table.
Qed.

End Decomposer.

(** ** The Case Classifier *)

Section Classifier.
Context {FM : FloatModel}.
Variable ISOVALUE : float.

(** The sixteen branches against the sixteen rows of section 4.3. *)
Lemma vertices_density_table (p0 p1 p2 p3 : bool) :
  Spec.case_mask p0 p1 p2 p3 = Some (vertices_density p0 p1 p2 p3).
Proof. by destruct p0, p1, p2, p3. Qed.

(** An edge is flagged exactly when its two ends differ in the flag. *)
Lemma vertices_density_xor (p0 p1 p2 p3 : bool) :
  vertices_density p0 p1 p2 p3 =
    Z.b2z <$> [xorb p0 p1; xorb p0 p2; xorb p0 p3;
               xorb p1 p2; xorb p2 p3; xorb p3 p1].
Proof. by destruct p0, p1, p2, p3. Qed.

Lemma tetrahedron_rule_tetra (v0 v1 v2 v3 : Point3f) (d0 d1 d2 d3 : float) :
  tetrahedron_rule ISOVALUE (tetra v0 v1 v2 v3 d0 d1 d2 d3) =
    Some (vertices_density (fltb d0 ISOVALUE) (fltb d1 ISOVALUE)
                           (fltb d2 ISOVALUE) (fltb d3 ISOVALUE)).
Proof. reflexivity. Qed.

Lemma tetrahedron_rule_table (t : Tetrahedron) :
  tetrahedron_rule ISOVALUE t = table_rule ISOVALUE t.
Proof.
  unfold tetrahedron_rule, table_rule, inside.
  destruct (tet_density t) as [|d0 [|d1 [|d2 [|d3 ds]]]]; try reflexivity.
  cbn -[Spec.case_mask vertices_density]. by rewrite vertices_density_table.
Qed.

(** C2: each of the sixteen combinations of the four flags is given the
    mask of its row in the table of section 4.3, and
    [get_vertice_density] pushes, for every tetrahedron in turn, the mask of
    the row of its flags density < isovalue. *)
Theorem C2_case_table :
  (∀ p0 p1 p2 p3 : bool,
     Spec.case_mask p0 p1 p2 p3 = Some (vertices_density p0 p1 p2 p3)) ∧
  vertices_density false false false true = [0; 0; 1; 0; 1; 1] ∧
  vertices_density false false true false = [0; 1; 0; 1; 1; 0] ∧
  vertices_density false true true false = [1; 1; 0; 0; 1; 1] ∧
  vertices_density true true true true = [0; 0; 0; 0; 0; 0] ∧
  (∀ (v0 v1 v2 v3 : Point3f) (d0 d1 d2 d3 : float) (rules : list (list Z)),
     (mask ← Spec.case_mask (fltb d0 ISOVALUE) (fltb d1 ISOVALUE)
                            (fltb d2 ISOVALUE) (fltb d3 ISOVALUE);
      Some (rules ++ [mask]))
     = get_vertice_density ISOVALUE [tetra v0 v1 v2 v3 d0 d1 d2 d3] rules) ∧
  (∀ (tets : list Tetrahedron) (rules : list (list Z)),
     get_vertice_density ISOVALUE tets rules =
       (masks ← mapM (table_rule ISOVALUE) tets; Some (rules ++ masks))).
Proof.
  split_and!; try reflexivity.
  - apply vertices_density_table.
  - intros. by rewrite vertices_density_table.
  - intros tets rules. unfold get_vertice_density. rewrite rule_loop_mapM.
    f_equal. induction tets as [|t tets IH]; [done|].
    cbn [mapM]. rewrite IH. by rewrite tetrahedron_rule_table.
Qed.

(** C8: flipping the four flags leaves the mask unchanged. *)
Theorem C8_point_symmetry (p0 p1 p2 p3 : bool) :
  vertices_density (negb p0) (negb p1) (negb p2) (negb p3) =
    vertices_density p0 p1 p2 p3.
Proof. by destruct p0, p1, p2, p3. Qed.

End Classifier.

(** ** The Triangulator *)

Section Triangulator.
Context {FM : FloatModel}.
Variable ISOVALUE : float.

(** The six points that [make_triangle] computes for a tetrahedron. *)
Lemma edge_points_tetra (v0 v1 v2 v3 : Point3f) (d0 d1 d2 d3 : float) :
  edge_points ISOVALUE (tetra v0 v1 v2 v3 d0 d1 d2 d3) =
    Some (mkEdgePoints (interpolation v0 v1 d0 d1 ISOVALUE)
                       (interpolation v0 v2 d0 d2 ISOVALUE)
                       (interpolation v0 v3 d0 d3 ISOVALUE)
                       (interpolation v1 v2 d1 d2 ISOVALUE)
                       (interpolation v2 v3 d2 d3 ISOVALUE)
                       (interpolation v3 v1 d3 d1 ISOVALUE)).
Proof. reflexivity. Qed.




(** The loop of [make_triangle], when tetrahedron number [k] finds its rule
    at index [k]: the triangles of each pair, one after the other. *)
Lemma triangle_loop_zip (todo : list Tetrahedron) (before rules : list (list Z))
    (triangles : list Triangle) :
  length rules = length todo →
  triangle_loop ISOVALUE todo (length before) (before ++ rules) triangles =
    (new ← mapM (pair_triangles ISOVALUE) (zip todo rules); Some (triangles ++ concat new)).
Proof.
  revert before rules triangles.
  induction todo as [|tet todo IH]; intros before rules triangles Hlen.
  - destruct rules; [|done]. cbn. by rewrite app_nil_r.
  - destruct rules as [|rule rules]; [done|]. injection Hlen as Hlen.
    change (zip (tet :: todo) (rule :: rules)) with ((tet, rule) :: zip todo rules).
    change (mapM (pair_triangles ISOVALUE) ((tet, rule) :: zip todo rules))
      with (y ← pair_triangles ISOVALUE (tet, rule);
            k ← mapM (pair_triangles ISOVALUE) (zip todo rules); Some (y :: k)).
    change (pair_triangles ISOVALUE (tet, rule))
      with (pts ← edge_points ISOVALUE tet; Some (rule_triangles pts rule)).
    change (triangle_loop ISOVALUE (tet :: todo) (length before)
              (before ++ rule :: rules) triangles)
      with (pts ← edge_points ISOVALUE tet;
            rule' ← (before ++ rule :: rules) !! length before;
            triangle_loop ISOVALUE todo (S (length before))
              (before ++ rule :: rules) (triangles ++ rule_triangles pts rule')).
    destruct (edge_points ISOVALUE tet) as [pts|]; [|reflexivity].
    rewrite list_lookup_middle by reflexivity.
    cbn [mbind option_bind].
    replace (S (length before)) with (length (before ++ [rule]))
      by (rewrite length_app; cbn; lia).
    replace (before ++ rule :: rules) with ((before ++ [rule]) ++ rules)
      by (by rewrite <- app_assoc).
    rewrite (IH _ _ _ Hlen).
    destruct (mapM (pair_triangles ISOVALUE) (zip todo rules)) as [new|]; [|reflexivity].
    cbn [mbind option_bind concat]. by rewrite <- app_assoc.
Qed.

Lemma make_triangle_zip (triangles : list Triangle) (tets : list Tetrahedron)
    (rules : list (list Z)) :
  length rules = length tets →
  make_triangle ISOVALUE triangles tets rules =
    (new ← mapM (pair_triangles ISOVALUE) (zip tets rules); Some (triangles ++ concat new)).
Proof. intros Hlen. exact (triangle_loop_zip tets [] rules triangles Hlen). Qed.


End Triangulator.


(** ** The traversal *)

Section Traversal.
Context {FM : FloatModel}.
Variable ISOVALUE : float.

(** With nothing in its copy of the tetrahedra, [make_triangle] leaves its
    copy of the triangles as it received it. *)
Lemma make_triangle_no_tetrahedron (triangles : list Triangle) (rules : list (list Z)) :
  make_triangle ISOVALUE triangles [] rules = Some triangles.
Proof. reflexivity. Qed.

(** The body of the loop never changes [triangles]. *)
Lemma cell_body_keeps_triangles (pc : PointCloud) (dx dy dz cx cy cz : float)
    (triangles out : list Triangle) :
  cell_body ISOVALUE pc dx dy dz cx cy cz triangles = Some out → out = triangles.
Proof.
  unfold cell_body.
  destruct (init_voxel_vertices _ _ _ _ _ _ _ _) as [voxel|]; [|done].
  cbn [mbind option_bind].
  destruct (divide_into_six_triangles voxel []) as [tets|]; [|done].
  cbn. by intros [= <-].
Qed.

Lemma for_float_keeps {S : Type} (body : float → S → option S) :
  (∀ v s s', body v s = Some s' → s' = s) →
  ∀ fuel v to step s s', for_float fuel v to step body s = Some s' → s' = s.
Proof.
  intros Hbody fuel. induction fuel as [|fuel IH]; intros v to step s s'; [done|].
  cbn [for_float]. destruct (fleb v to); [|by intros [= <-]].
  destruct (body v s) as [s1|] eqn:Hs1; [|done]. cbn [mbind option_bind].
  intros Hrest. apply IH in Hrest. apply Hbody in Hs1. congruence.
Qed.

(** Whatever the field and the box, a traversal that ends leaves [triangles]
    empty. *)
Lemma marching_no_triangle (fuel : nat) (pc : PointCloud)
    (min_x min_y min_z max_x max_y max_z dx dy dz : float) (out : list Triangle) :
  marching ISOVALUE fuel pc min_x min_y min_z max_x max_y max_z dx dy dz = Some out →
  out = [].
Proof.
  unfold marching. apply for_float_keeps. intros cz.
  apply for_float_keeps. intros cy.
  apply for_float_keeps. intros cx.
  apply cell_body_keeps_triangles.
Qed.

End Traversal.

(** C1, at a failing input.  The field has two samples of density 0, one in
    the middle of the unit cell and one at the origin; the threshold is one
    half; the cell is the unit cell at the origin, whose corner v0 alone is
    below the threshold.  Chained, the stages push two triangles (the ones
    of the tetrahedra 3 and 4, which hold v0).  In the program the three
    last stages work on copies: the body of the loop leaves [triangles]
    empty, and so does the whole traversal.  Both in exact arithmetic and in
    binary32. *)
Theorem C1_triangles_lost_in_copies :
  @one_corner_scenario exactQ halfQ ∧ @one_corner_scenario binary32 half32.
Proof. split; unfold one_corner_scenario; split_and!; reflexivity. Qed.

(** ** Interpolation *)

Section InterpolationQ.
Local Open Scope Q_scope.

(** [<] on the rationals, as the instance computes it. *)
Lemma fltb_Q (a b : Q) : @fltb exactQ a b = true ↔ a < b.
Proof.
  cbn. rewrite negb_true_iff, <- not_true_iff_false, Qle_bool_iff.
  split; [apply Qnot_le_lt | apply Qlt_not_le].
Qed.

(** The density interpolated at [mu] along the edge is the threshold. *)
Lemma mu_reaches_isovalue (dA dB iso : Q) :
  ¬ dA == dB → dA + @mu exactQ dA dB iso * (dB - dA) == iso.
Proof.
  intros Hne. unfold mu. cbn [fdiv fsub exactQ]. field.
  intros Hd. apply Hne. lra.
Qed.

(** With [mu] one half the point is the middle of the segment. *)
Lemma interpolation_midpoint (A B : @Point3f exactQ) (dA dB iso : Q) :
  @mu exactQ dA dB iso == 1 # 2 →
  x (interpolation A B dA dB iso) == (x A + x B) / 2 ∧
  y (interpolation A B dA dB iso) == (y A + y B) / 2 ∧
  z (interpolation A B dA dB iso) == (z A + z B) / 2.
Proof.
  intros Hmu. unfold interpolation. cbn [x y z fadd fmul fsub exactQ].
  rewrite Hmu. split_and!; field.
Qed.

(** On an edge whose ends are on the two sides of the threshold (one
    density below it, the other not), the divisor is not zero and [mu] is
    between 0 and 1; strictly so when no end has the threshold as its
    density. *)
Lemma mu_on_crossing (dA dB iso : Q) :
  xorb (@fltb exactQ dA iso) (@fltb exactQ dB iso) = true →
  ¬ dB - dA == 0 ∧
  (0 <= @mu exactQ dA dB iso ∧ @mu exactQ dA dB iso <= 1) ∧
  (¬ dA == iso → ¬ dB == iso →
   0 < @mu exactQ dA dB iso ∧ @mu exactQ dA dB iso < 1).
Proof.
  intros Hx. unfold mu. cbn [fdiv fsub exactQ].
  destruct (@fltb exactQ dA iso) eqn:HA, (@fltb exactQ dB iso) eqn:HB;
    try discriminate.
  - apply fltb_Q in HA. apply not_true_iff_false in HB. rewrite fltb_Q in HB.
    apply Qnot_lt_le in HB.
    assert (Hd : 0 < dB - dA) by lra.
    split; [lra|]. split; [split|].
    + apply Qle_shift_div_l; [done|lra].
    + apply Qle_shift_div_r; [done|lra].
    + intros _ HBi. assert (iso < dB).
      { destruct (Qle_lt_or_eq _ _ HB) as [?|E]; [done|]. destruct HBi. by symmetry. }
      split; [apply Qlt_shift_div_l | apply Qlt_shift_div_r]; try done; lra.
  - apply fltb_Q in HB. apply not_true_iff_false in HA. rewrite fltb_Q in HA.
    apply Qnot_lt_le in HA.
    assert (Hd : 0 < dA - dB) by lra.
    assert (E : (iso - dA) / (dB - dA) == (dA - iso) / (dA - dB)).
    { field. split; lra. }
    split; [lra|]. rewrite E. split; [split|].
    + apply Qle_shift_div_l; [done|lra].
    + apply Qle_shift_div_r; [done|lra].
    + intros HAi _. assert (iso < dA).
      { destruct (Qle_lt_or_eq _ _ HA) as [?|E']; [done|]. destruct HAi. by symmetry. }
      split; [apply Qlt_shift_div_l | apply Qlt_shift_div_r]; try done; lra.
Qed.

End InterpolationQ.

(** C7, amended: [interpolation] returns A + t (B - A), coordinate by
    coordinate, with t = (isovalue - dA) / (dB - dA), every operation being
    the one of [float], in every arithmetic.  In exact arithmetic, when dA
    and dB differ the density interpolated at t is the isovalue; t is 1/2
    for (0, 10, 5), where the point is the middle of the segment, 1/2 for
    (2, 8, 5) and 1/4 for (0, 4, 1).  In binary32 the three quotients are
    these values too, without rounding; the point itself is rounded. *)
Theorem C7_interpolation :
  (∀ (FM : FloatModel) (A B : Point3f) (dA dB isovalue : float),
     let t := fdiv (fsub isovalue dA) (fsub dB dA) in
     mu dA dB isovalue = t ∧
     interpolation A B dA dB isovalue =
       mkPoint3f (fadd (x A) (fmul t (fsub (x B) (x A))))
                 (fadd (y A) (fmul t (fsub (y B) (y A))))
                 (fadd (z A) (fmul t (fsub (z B) (z A))))) ∧
  (∀ dA dB isovalue : Q,
     ¬ (dA == dB)%Q →
     (dA + @mu exactQ dA dB isovalue * (dB - dA) == isovalue)%Q) ∧
  (@mu exactQ 0 10 5 == 1 # 2)%Q ∧
  (∀ A B : @Point3f exactQ,
     (x (interpolation A B 0 10 5) == (x A + x B) / 2)%Q ∧
     (y (interpolation A B 0 10 5) == (y A + y B) / 2)%Q ∧
     (z (interpolation A B 0 10 5) == (z A + z B) / 2)%Q) ∧
  (@mu exactQ 2 8 5 == 1 # 2)%Q ∧
  (@mu exactQ 0 4 1 == 1 # 4)%Q ∧
  @mu binary32 (of_int 0) (of_int 10) (of_int 5) = half32 ∧
  @mu binary32 (of_int 2) (of_int 8) (of_int 5) = half32 ∧
  @mu binary32 (of_int 0) (of_int 4) (of_int 1) = S754_finite false 8388608 (-25).
Proof.
  split_and!; try reflexivity.
  - intros FM A B dA dB isovalue. split; reflexivity.
  - apply mu_reaches_isovalue.
  - intros A B. by apply interpolation_midpoint.
Qed.

(** Densities 0 and 10 differ: at the threshold 5 the interpolated density
    is 5. *)
Lemma C7_witness : (0 + @mu exactQ 0 10 5 * (10 - 0) == 5)%Q.
Proof.
  destruct C7_interpolation as (_ & Hreach & _).
  apply (Hreach 0%Q 10%Q 5%Q). intros H. discriminate H.
Defined.

(** C7, as stated, fails in binary32: with the densities 0 and 10 and the
    threshold 5, between the abscissas 1 and 2^24 the point is at 2^23,
    and the middle is at 2^23 + 1/2. *)
Lemma C7_counterexample :
  ¬ (∀ A B : @Point3f binary32,
       is_Some (value32 (x A)) → is_Some (value32 (x B)) →
       exact_midpoint32 (x A) (x B)
         (x (interpolation A B (of_int 0) (of_int 10) (of_int 5)))).
Proof.
  intros Hclaim.
  specialize (Hclaim (mkPoint3f (of_int 1) (of_int 0) (of_int 0))
                     (mkPoint3f (of_int 16777216) (of_int 0) (of_int 0))
                     (ltac:(by eexists)) (ltac:(by eexists))).
  vm_compute in Hclaim. discriminate Hclaim.
Qed.

(** Between -2^127 and 2^127 the difference of the abscissas overflows and
    the point is at infinity, where the middle is at 0. *)
Lemma midpoint_overflow_binary32 :
  let A := @mkPoint3f binary32 (S754_finite true 8388608 104) (of_int 0) (of_int 0) in
  let B := @mkPoint3f binary32 (S754_finite false 8388608 104) (of_int 0) (of_int 0) in
  x (interpolation A B (of_int 0) (of_int 10) (of_int 5)) = S754_infinity false.
Proof. reflexivity. Qed.

(** ** Where [interpolation] is called *)

Section Calls.
Context {FM : FloatModel}.
Variable ISOVALUE : float.

(** The six calls are made for every tetrahedron, before its rule is read
    and whatever the rule is. *)
Lemma edge_calls_tetra (v0 v1 v2 v3 : Point3f) (d0 d1 d2 d3 : float) :
  edge_calls ISOVALUE (tetra v0 v1 v2 v3 d0 d1 d2 d3) =
    Some [ mkCall v0 v1 d0 d1 ISOVALUE; mkCall v0 v2 d0 d2 ISOVALUE;
           mkCall v0 v3 d0 d3 ISOVALUE; mkCall v1 v2 d1 d2 ISOVALUE;
           mkCall v2 v3 d2 d3 ISOVALUE; mkCall v3 v1 d3 d1 ISOVALUE ].
Proof. reflexivity. Qed.


End Calls.

(** The first tetrahedron of the unit cell in the field of two samples: the
    four corners equal no sample and all have the density 1. *)
Lemma flat_tetrahedron_of_unit_cell :
  (voxel ← init_voxel_vertices (two_samples halfQ 0%Q 0%Q) empty_voxel
             0%Q 0%Q 0%Q 1%Q 1%Q 1%Q;
   tets ← divide_into_six_triangles voxel [];
   tets !! 0%nat)
  = Some (tetra (mkPoint3f 0%Q 0%Q 1%Q) (mkPoint3f 0%Q 1%Q 1%Q)
                (mkPoint3f 0%Q 1%Q 0%Q) (mkPoint3f 1%Q 1%Q 0%Q)
                1%Q 1%Q 1%Q 1%Q).
Proof. reflexivity. Qed.

(** In binary32 the division by zero of such a call gives an infinity. *)
Lemma mu_flat_edge_binary32 :
  @mu binary32 (of_int 1) (of_int 1) half32 = S754_infinity true.
Proof. reflexivity. Qed.

(** In binary32 the coordinates of the point are rounded: between 1 and
    2^24, with t one half, the point is at 2^23 where the middle of the
    segment is at 2^23 + 1/2, which binary32 does not hold. *)
Lemma midpoint_rounded_binary32 :
  let A := @mkPoint3f binary32 (of_int 1) (of_int 0) (of_int 0) in
  let B := @mkPoint3f binary32 (of_int 16777216) (of_int 0) (of_int 0) in
  x (interpolation A B (of_int 0) (of_int 10) (of_int 5)) = of_int 8388608.
Proof. reflexivity. Qed.




(** * Further properties of the code *)

(** ** [init_voxel_vertices] on any voxel and any field *)

Section VoxelBuilderMore.
Context {FM : FloatModel}.

(** The lookup of one corner, by what [std::find] answers. *)
Lemma corner_density_Some (pc : PointCloud) (vertex : Point3f) (d : float) :
  corner_density pc vertex = Some d →
  d = of_int 1 ∨
  ∃ k, pc_density pc !! k = Some d ∧ (S k < length (pc_vertices pc))%nat.
Proof.
  unfold corner_density.
  destruct (find_vertex pc vertex) as [[i p]|] eqn:Hfind.
  - intros Hread. right.
    apply list_find_Some in Hfind as (Hi & _ & _).
    apply lookup_lt_Some in Hi.
    unfold vec_at in Hread.
    destruct (Z.ltb_spec (Z.of_nat i - 1) 0) as [|Hpos]; [done|].
    exists (Z.to_nat (Z.of_nat i - 1)). split; [done|]. lia.
  - intros [= <-]. by left.
Qed.

(** The first sample of the field, met by a corner, is read at index -1. *)
Lemma corner_density_first_sample (pc : PointCloud) (p : Point3f)
    (rest : list Point3f) (vertex : Point3f) :
  pc_vertices pc = p :: rest →
  Point3f_eqb p vertex = true →
  corner_density pc vertex = None.
Proof.
  intros Hpc Hp. unfold corner_density.
  rewrite (find_vertex_first pc vertex p 0); [done | by rewrite Hpc | done |].
  intros j q _ Hj. lia.
Qed.

(** A corner that the first sample does not equal is read inside the
    densities, when these are at most one fewer than the positions. *)
Lemma corner_density_defined (pc : PointCloud) (vertex : Point3f) :
  (length (pc_vertices pc) ≤ S (length (pc_density pc)))%nat →
  (∀ p, head (pc_vertices pc) = Some p → Point3f_eqb p vertex = false) →
  is_Some (corner_density pc vertex).
Proof.
  intros Hlen Hhead. unfold corner_density.
  destruct (find_vertex pc vertex) as [[i p]|] eqn:Hfind; [|done].
  apply list_find_Some in Hfind as (Hi & Hp & _).
  destruct i as [|i].
  - destruct (pc_vertices pc) as [|p0 ps]; [done|].
    injection Hi as ->. rewrite (Hhead p eq_refl) in Hp. done.
  - apply lookup_lt_Some in Hi. unfold vec_at.
    destruct (Z.ltb_spec (Z.of_nat (S i) - 1) 0) as [|_]; [lia|].
    apply lookup_lt_is_Some. lia.
Qed.

(** X1: [voxel] is filled in place.  The eight corners are pushed after the
    positions the voxel already holds, and the loop then runs over all the
    positions from index 0, the old ones too: the voxel keeps its old
    densities and gets one more for every old position and for every new
    corner.  Filled a second time, a voxel gets 16 positions and 24
    densities. *)
Theorem X1_voxel_filled_in_place (pc : PointCloud) (voxel voxel' : Voxel)
    (cx cy cz dx dy dz : float) :
  init_voxel_vertices pc voxel cx cy cz dx dy dz = Some voxel' →
  vox_vertices voxel' = vox_vertices voxel ++ voxel_corners cx cy cz dx dy dz ∧
  (∃ pushed,
     vox_density voxel' = vox_density voxel ++ pushed ∧
     length pushed = (length (vox_vertices voxel) + 8)%nat) ∧
  length (vox_density voxel') =
    (length (vox_density voxel) + length (vox_vertices voxel) + 8)%nat.
Proof.
  unfold init_voxel_vertices. rewrite density_loop_mapM.
  destruct (mapM _ _) as [ds|] eqn:Hds; [|done].
  intros [= <-]. cbn [vox_vertices vox_density mbind option_bind].
  apply length_mapM in Hds. rewrite length_app in Hds. cbn [length voxel_corners] in Hds.
  split_and!; [done | exists ds; split; [done|lia] |].
  rewrite length_app. lia.
Qed.

(** X2: when the first sample of the field is at a corner of the cell, the
    lookup reads the density of index -1 and the voxel is not defined,
    whatever the rest of the field and the voxel handed in. *)
Theorem X2_first_sample_on_corner (pc : PointCloud) (p : Point3f)
    (rest : list Point3f) (voxel : Voxel) (cx cy cz dx dy dz : float) (c : Point3f) :
  pc_vertices pc = p :: rest →
  c ∈ voxel_corners cx cy cz dx dy dz →
  Point3f_eqb p c = true →
  init_voxel_vertices pc voxel cx cy cz dx dy dz = None.
Proof.
  intros Hpc Hc Hp. unfold init_voxel_vertices. rewrite density_loop_mapM.
  destruct (mapM _ _) as [ds|] eqn:Hds; [|done].
  assert (Hall : is_Some (mapM (corner_density pc)
            (vox_vertices voxel ++ voxel_corners cx cy cz dx dy dz))) by eauto.
  apply mapM_is_Some, Forall_forall with (x := c) in Hall.
  - cbn in Hall. rewrite (corner_density_first_sample pc p rest c Hpc Hp) in Hall.
    by destruct Hall.
  - apply elem_of_app. by right.
Qed.

(** X3: with at most one density fewer than positions in the field, a fresh
    voxel is defined exactly when the first sample is at none of the eight
    corners.  In particular it is defined on an empty field. *)
Theorem X3_fresh_voxel_defined (pc : PointCloud) (cx cy cz dx dy dz : float) :
  (length (pc_vertices pc) ≤ S (length (pc_density pc)))%nat →
  is_Some (init_voxel_vertices pc empty_voxel cx cy cz dx dy dz) ↔
  (∀ p c, head (pc_vertices pc) = Some p →
          c ∈ voxel_corners cx cy cz dx dy dz → Point3f_eqb p c = false).
Proof.
  intros Hlen. rewrite init_voxel_vertices_fresh. split.
  - intros Hsome p c Hhead Hc.
    destruct (Point3f_eqb p c) eqn:Hp; [|done]. exfalso.
    destruct (mapM _ _) as [ds|] eqn:Hds; [|by destruct Hsome].
    assert (Hall : is_Some (mapM (corner_density pc)
              (voxel_corners cx cy cz dx dy dz))) by eauto.
    apply mapM_is_Some, Forall_forall with (x := c) in Hall; [|done].
    destruct (pc_vertices pc) as [|p0 rest] eqn:Hpc; [done|]. injection Hhead as ->.
    cbn in Hall. rewrite (corner_density_first_sample pc p rest c Hpc Hp) in Hall.
    by destruct Hall.
  - intros Hno.
    assert (Hall : is_Some (mapM (corner_density pc)
              (voxel_corners cx cy cz dx dy dz))).
    { apply mapM_is_Some, Forall_forall. intros c Hc. cbn.
      apply corner_density_defined; [done|]. intros p Hhead. by apply Hno. }
    destruct Hall as [ds ->]. done.
Qed.

(** X4: every density of a fresh voxel is the sentinel 1 or a density of the
    field, and never the one of the last sample when the field has as many
    densities as positions: a density of index k is only read for the sample
    of index k + 1. *)
Theorem X4_densities_from_field (pc : PointCloud) (voxel : Voxel)
    (cx cy cz dx dy dz : float) (d : float) :
  init_voxel_vertices pc empty_voxel cx cy cz dx dy dz = Some voxel →
  d ∈ vox_density voxel →
  d = of_int 1 ∨
  ∃ k, pc_density pc !! k = Some d ∧ (S k < length (pc_vertices pc))%nat.
Proof.
  rewrite init_voxel_vertices_fresh.
  destruct (mapM _ _) as [ds|] eqn:Hds; [|done].
  intros [= <-] Hd. cbn [vox_density] in Hd.
  apply mapM_Some_1 in Hds.
  apply list_elem_of_lookup in Hd as [j Hj].
  destruct (Forall2_lookup_r _ _ _ _ _ Hds Hj) as (c & _ & Hc).
  by apply corner_density_Some in Hc.
Qed.

End VoxelBuilderMore.

(** The cell at the origin of the field of two samples, filled twice. *)
Lemma X1_witness :
  ∃ once twice,
    init_voxel_vertices (two_samples halfQ 0%Q 0%Q) empty_voxel
      0%Q 0%Q 0%Q 1%Q 1%Q 1%Q = Some once ∧
    init_voxel_vertices (two_samples halfQ 0%Q 0%Q) once
      0%Q 0%Q 0%Q 1%Q 1%Q 1%Q = Some twice ∧
    length (vox_vertices once) = 8%nat ∧ length (vox_density once) = 8%nat ∧
    length (vox_vertices twice) = 16%nat ∧ length (vox_density twice) = 24%nat.
Proof.
  destruct (init_voxel_vertices (two_samples halfQ 0%Q 0%Q) empty_voxel
              0%Q 0%Q 0%Q 1%Q 1%Q 1%Q) as [once|] eqn:H1; [|discriminate H1].
  destruct (init_voxel_vertices (two_samples halfQ 0%Q 0%Q) once
              0%Q 0%Q 0%Q 1%Q 1%Q 1%Q) as [twice|] eqn:H2.
  - exists once, twice.
    destruct (X1_voxel_filled_in_place _ _ _ _ _ _ _ _ _ H1) as (Hv1 & _ & Hd1).
    destruct (X1_voxel_filled_in_place _ _ _ _ _ _ _ _ _ H2) as (Hv2 & _ & Hd2).
    assert (Hl1 : length (vox_vertices once) = 8%nat) by (by rewrite Hv1).
    assert (Hl2 : length (vox_density once) = 8%nat) by (by rewrite Hd1).
    split_and!; [done..| |].
    + rewrite Hv2, length_app, Hl1. reflexivity.
    + rewrite Hd2, Hl1, Hl2. reflexivity.
  - injection H1 as <-. discriminate H2.
Defined.

(** The only sample of the field is at the origin, a corner of the cell. *)
Lemma X2_witness :
  init_voxel_vertices (@one_sample exactQ 0%Q) empty_voxel
    0%Q 0%Q 0%Q 1%Q 1%Q 1%Q = None.
Proof.
  apply (X2_first_sample_on_corner (@one_sample exactQ 0%Q) origin [] empty_voxel
           0%Q 0%Q 0%Q 1%Q 1%Q 1%Q (@mkPoint3f exactQ 0%Q 0%Q 0%Q)).
  - reflexivity.
  - apply list_elem_of_here.
  - reflexivity.
Defined.

(** The first sample of the field is in the middle of the cell. *)
Lemma X3_witness :
  is_Some (init_voxel_vertices (two_samples halfQ 0%Q 0%Q) empty_voxel
             0%Q 0%Q 0%Q 1%Q 1%Q 1%Q).
Proof.
  apply X3_fresh_voxel_defined.
  - cbn. lia.
  - intros p c [= <-] Hc. apply list_elem_of_In in Hc.
    cbn in Hc. intuition (subst c; reflexivity).
Defined.

(** With densities 0 and 1 in the field, the density given to the corner at
    the origin is 0, read at index 0 for the sample of index 1. *)
Lemma X4_witness :
  0%Q = @of_int exactQ 1 ∨
  ∃ k, pc_density (two_samples halfQ 0%Q 1%Q) !! k = Some 0%Q ∧
       (S k < length (pc_vertices (two_samples halfQ 0%Q 1%Q)))%nat.
Proof.
  apply (X4_densities_from_field (two_samples halfQ 0%Q 1%Q)
           (@mkVoxel exactQ (@voxel_corners exactQ 0%Q 0%Q 0%Q 1%Q 1%Q 1%Q)
                    [0%Q; 1%Q; 1%Q; 1%Q; 1%Q; 1%Q; 1%Q; 1%Q])
           0%Q 0%Q 0%Q 1%Q 1%Q 1%Q 0%Q).
  - reflexivity.
  - apply list_elem_of_here.
Defined.

(** ** The classifier and the triangulator together *)

Section StagesMore.
Context {FM : FloatModel}.
Variable ISOVALUE : float.

Lemma rule_triangles_at_most_two (pts : EdgePoints) (rule : list Z) :
  (length (rule_triangles pts rule) ≤ 2)%nat ∧
  Forall (λ tr, length (tri_vertices tr) = 3%nat) (rule_triangles pts rule).
Proof.
  unfold rule_triangles.
  repeat case_decide; cbn; (split; [lia | by repeat constructor]).
Qed.

Lemma make_triangle_single (triangles : list Triangle) (tet : Tetrahedron)
    (rule : list Z) :
  make_triangle ISOVALUE triangles [tet] [rule] =
    (pts ← edge_points ISOVALUE tet; Some (triangles ++ rule_triangles pts rule)).
Proof.
  rewrite make_triangle_zip by reflexivity.
  cbn [zip zip_with mapM]. unfold pair_triangles. cbn [fst snd].
  destruct (edge_points ISOVALUE tet) as [pts|]; [|reflexivity].
  cbn [mbind option_bind mret option_ret concat]. by rewrite app_nil_r.
Qed.

(** The loop of [make_triangle] from index [t] on: its reads of the rules,
    and what it adds to the triangles. *)
Lemma triangle_loop_short (todo : list Tetrahedron) (t : nat)
    (rules : list (list Z)) (triangles : list Triangle) :
  (t ≤ length rules)%nat →
  (length rules < t + length todo)%nat →
  triangle_loop ISOVALUE todo t rules triangles = None.
Proof.
  revert t triangles. induction todo as [|tet todo IH]; intros t triangles Ht Hlen.
  - cbn in Hlen. lia.
  - cbn [triangle_loop].
    destruct (edge_points ISOVALUE tet) as [pts|]; [|reflexivity].
    cbn [mbind option_bind].
    destruct (rules !! t) as [rule|] eqn:Hrule; [|reflexivity].
    cbn [mbind option_bind]. apply lookup_lt_Some in Hrule.
    apply IH; [lia|]. cbn in Hlen. lia.
Qed.

Lemma triangle_loop_extends (todo : list Tetrahedron) (t : nat)
    (rules : list (list Z)) (triangles out : list Triangle) :
  triangle_loop ISOVALUE todo t rules triangles = Some out →
  ∃ new, out = triangles ++ new ∧
         (length new ≤ 2 * length todo)%nat ∧
         Forall (λ tr, length (tri_vertices tr) = 3%nat) new.
Proof.
  revert t triangles. induction todo as [|tet todo IH]; intros t triangles.
  - intros [= <-]. exists []. rewrite app_nil_r. cbn. split_and!; [done|lia|done].
  - cbn [triangle_loop].
    destruct (edge_points ISOVALUE tet) as [pts|]; [|done].
    cbn [mbind option_bind].
    destruct (rules !! t) as [rule|] eqn:Hrule; [|done].
    cbn [mbind option_bind]. intros Hrest.
    apply IH in Hrest as (new & -> & Hnew & Hthree).
    destruct (rule_triangles_at_most_two pts rule) as [Htwo Hthree'].
    exists (rule_triangles pts rule ++ new).
    split_and!.
    + by rewrite <- app_assoc.
    + rewrite length_app. cbn [length]. lia.
    + by apply Forall_app.
Qed.

(** X5: for one tetrahedron, the classifier followed by the triangulator
    gives no triangle when its four corners are on the same side of the
    threshold, one triangle when one corner or three are below it, and two
    triangles when two are. *)
Theorem X5_triangles_by_inside_count (triangles : list Triangle)
    (v0 v1 v2 v3 : Point3f) (d0 d1 d2 d3 : float) :
  let tet := tetra v0 v1 v2 v3 d0 d1 d2 d3 in
  let n := inside_count (fltb d0 ISOVALUE) (fltb d1 ISOVALUE)
                        (fltb d2 ISOVALUE) (fltb d3 ISOVALUE) in
  ∃ out,
    (rules ← get_vertice_density ISOVALUE [tet] [];
     make_triangle ISOVALUE triangles [tet] rules) = Some out ∧
    length out = (length triangles + triangles_for n)%nat.
Proof.
  intros tet n. subst tet n.
  change (get_vertice_density ISOVALUE [tetra v0 v1 v2 v3 d0 d1 d2 d3] [])
    with (Some [vertices_density (fltb d0 ISOVALUE) (fltb d1 ISOVALUE)
                                 (fltb d2 ISOVALUE) (fltb d3 ISOVALUE)]).
  cbn [mbind option_bind]. rewrite make_triangle_single, edge_points_tetra.
  cbn [mbind option_bind]. eexists. split; [reflexivity|].
  rewrite length_app. f_equal.
  by destruct (fltb d0 ISOVALUE), (fltb d1 ISOVALUE),
              (fltb d2 ISOVALUE), (fltb d3 ISOVALUE).
Qed.

(** X6: [get_vertice_density] pushes one rule for every tetrahedron, after
    the rules it received; the rule of a tetrahedron has six entries, and
    the entry of an edge is 1 when exactly one of its two ends has its
    density below the threshold, 0 otherwise. *)
Theorem X6_edge_flagged_iff_ends_differ (tets : list Tetrahedron)
    (rules out : list (list Z)) :
  get_vertice_density ISOVALUE tets rules = Some out →
  length out = (length rules + length tets)%nat ∧
  ∀ (k : nat) (tet : Tetrahedron), tets !! k = Some tet →
    ∃ rule, out !! (length rules + k)%nat = Some rule ∧
            length rule = 6%nat ∧
            ∀ e : Spec.Edge,
              ∃ da db, tet_density tet !! (endpoints e).1 = Some da ∧
                       tet_density tet !! (endpoints e).2 = Some db ∧
                       rule !! Spec.edge_index e =
                         Some (Z.b2z (xorb (fltb da ISOVALUE) (fltb db ISOVALUE))).
Proof.
  unfold get_vertice_density. rewrite rule_loop_mapM.
  destruct (mapM _ _) as [rs|] eqn:Hrs; [|done].
  intros [= <-]. apply mapM_Some_1 in Hrs. split.
  - rewrite length_app. f_equal. symmetry. by eapply Forall2_length.
  - intros k tet Hk.
    destruct (Forall2_lookup_l _ _ _ _ _ Hrs Hk) as (rule & Hrule & Htet).
    exists rule. split.
    { rewrite lookup_app_r by lia. by replace (length rules + k - length rules)%nat with k by lia. }
    unfold tetrahedron_rule in Htet.
    destruct (tet_density tet) as [|d0 [|d1 [|d2 [|d3 ds]]]]; try discriminate.
    cbn in Htet. injection Htet as <-. rewrite vertices_density_xor.
    split; [reflexivity|].
    intros []; cbn; eexists _, _; split_and!; reflexivity.
Qed.

(** X7: [make_triangle] reads one rule for every tetrahedron, at the index
    of the tetrahedron: with fewer rules than tetrahedra it reads past the
    end of the rules and has no defined result. *)
Theorem X7_fewer_rules_than_tetrahedra (triangles : list Triangle)
    (tets : list Tetrahedron) (rules : list (list Z)) :
  (length rules < length tets)%nat →
  make_triangle ISOVALUE triangles tets rules = None.
Proof. intros Hlen. apply triangle_loop_short; [lia|done]. Qed.

(** X8: when [make_triangle] has a result, it is the sequence it received
    followed by at most two new triangles for every tetrahedron, each of
    three vertices; nothing already there is changed or dropped. *)
Theorem X8_triangles_only_appended (triangles out : list Triangle)
    (tets : list Tetrahedron) (rules : list (list Z)) :
  make_triangle ISOVALUE triangles tets rules = Some out →
  ∃ new, out = triangles ++ new ∧
         (length new ≤ 2 * length tets)%nat ∧
         Forall (λ tr, length (tri_vertices tr) = 3%nat) new.
Proof.
  intros Hout. by apply triangle_loop_extends in Hout.
Qed.

End StagesMore.

(** A tetrahedron with p0 alone below the threshold one half: the rule
    pushed after no other is 111000, and the edge p01 is flagged. *)
Lemma X6_witness :
  let tet := tetra (@mkPoint3f exactQ 0%Q 0%Q 0%Q) (@mkPoint3f exactQ 1%Q 0%Q 0%Q)
                   (@mkPoint3f exactQ 0%Q 1%Q 0%Q) (@mkPoint3f exactQ 0%Q 0%Q 1%Q)
                   0%Q 1%Q 1%Q 1%Q in
  ∃ rule, [[1; 1; 1; 0; 0; 0]] !! 0%nat = Some rule ∧
          length rule = 6%nat ∧
          ∃ da db, tet_density tet !! 0%nat = Some da ∧
                   tet_density tet !! 1%nat = Some db ∧
                   rule !! 0%nat = Some (Z.b2z (xorb (fltb da halfQ) (fltb db halfQ))).
Proof.
  intros tet.
  destruct (X6_edge_flagged_iff_ends_differ halfQ [tet] [] [[1; 1; 1; 0; 0; 0]] eq_refl)
    as [_ Hrules].
  destruct (Hrules 0%nat tet eq_refl) as (rule & Hrule & Hsix & Hedges).
  exists rule. split_and!; [exact Hrule | exact Hsix | exact (Hedges Spec.P01)].
Defined.

(** One tetrahedron and no rule. *)
Lemma X7_witness :
  make_triangle halfQ []
    [tetra (@mkPoint3f exactQ 0%Q 0%Q 0%Q) (@mkPoint3f exactQ 1%Q 0%Q 0%Q)
           (@mkPoint3f exactQ 0%Q 1%Q 0%Q) (@mkPoint3f exactQ 0%Q 0%Q 1%Q)
           0%Q 1%Q 1%Q 1%Q] [] = None.
Proof. apply X7_fewer_rules_than_tetrahedra. cbn. lia. Defined.

(** One tetrahedron with two corners below the threshold, after one
    triangle already in the sequence: two triangles are added. *)
Lemma X8_witness :
  let old := @mkTriangle exactQ [origin; origin; origin] in
  let tet := tetra (@mkPoint3f exactQ 0%Q 0%Q 0%Q) (@mkPoint3f exactQ 1%Q 0%Q 0%Q)
                   (@mkPoint3f exactQ 0%Q 1%Q 0%Q) (@mkPoint3f exactQ 0%Q 0%Q 1%Q)
                   0%Q 0%Q 1%Q 1%Q in
  ∃ out new, make_triangle halfQ [old] [tet] [[0; 1; 1; 1; 0; 1]] = Some out ∧
             out = [old] ++ new ∧ (length new ≤ 2 * 1)%nat ∧
             Forall (λ tr, length (tri_vertices tr) = 3%nat) new.
Proof.
  intros old tet.
  destruct (make_triangle halfQ [old] [tet] [[0; 1; 1; 1; 0; 1]]) as [out|] eqn:Hout;
    [|discriminate Hout].
  destruct (X8_triangles_only_appended halfQ [old] out [tet] [[0; 1; 1; 1; 0; 1]] Hout)
    as (new & Hnew & Hlen & Hthree).
  exists out, new. split_and!; [reflexivity | exact Hnew | exact Hlen | exact Hthree].
Defined.

(** ** A whole cell *)

Section CellMore.
Context {FM : FloatModel}.
Variable ISOVALUE : float.

(** X9: when the eight densities of a voxel are on the same side of the
    threshold, all below it or none below it, the stages chained on this
    voxel leave the triangles as they were; and so they do for every cell of
    an empty field, whatever the threshold. *)
Theorem X9_same_side_no_triangle :
  (∀ (b : bool) (v0 v1 v2 v3 v4 v5 v6 v7 : Point3f)
     (d0 d1 d2 d3 d4 d5 d6 d7 : float) (triangles : list Triangle),
     Forall (λ d, fltb d ISOVALUE = b) [d0; d1; d2; d3; d4; d5; d6; d7] →
     threaded_stages ISOVALUE
       (mkVoxel [v0; v1; v2; v3; v4; v5; v6; v7] [d0; d1; d2; d3; d4; d5; d6; d7])
       triangles = Some triangles) ∧
  (∀ (dx dy dz cx cy cz : float) (triangles : list Triangle),
     threaded_cell ISOVALUE (mkPointCloud [] []) dx dy dz cx cy cz triangles
       = Some triangles).
Proof.
  assert (Hside : ∀ (b : bool) (v0 v1 v2 v3 v4 v5 v6 v7 : Point3f)
     (d0 d1 d2 d3 d4 d5 d6 d7 : float) (triangles : list Triangle),
     Forall (λ d, fltb d ISOVALUE = b) [d0; d1; d2; d3; d4; d5; d6; d7] →
     threaded_stages ISOVALUE
       (mkVoxel [v0; v1; v2; v3; v4; v5; v6; v7] [d0; d1; d2; d3; d4; d5; d6; d7])
       triangles = Some triangles).
  { intros b v0 v1 v2 v3 v4 v5 v6 v7 d0 d1 d2 d3 d4 d5 d6 d7 triangles Hall.
    repeat (apply Forall_cons in Hall as [? Hall]).
    unfold threaded_stages.
    cbn -[vertices_density rule_triangles interpolation].
    repeat match goal with H : fltb _ _ = _ |- _ => rewrite H; clear H end.
    destruct b; cbn; by rewrite ?app_nil_r. }
  split; [exact Hside|].
  intros dx dy dz cx cy cz triangles.
  apply (Hside (fltb (of_int 1) ISOVALUE)). by repeat constructor.
Qed.

(** X10: the body of the loop of [main] does one thing that can be seen: it
    fills the voxel, which reads the field and may read it out of bounds.
    When the voxel is defined, [triangles] is left as it was; the three
    other stages, run on empty copies, never fail. *)
Theorem X10_cell_body_is_the_lookup (pc : PointCloud)
    (dx dy dz cx cy cz : float) (triangles : list Triangle) :
  cell_body ISOVALUE pc dx dy dz cx cy cz triangles =
    (_ ← init_voxel_vertices pc empty_voxel cx cy cz dx dy dz; Some triangles).
Proof.
  unfold cell_body.
  destruct (init_voxel_vertices pc empty_voxel cx cy cz dx dy dz)
    as [voxel|] eqn:Hinit; [|reflexivity].
  cbn [mbind option_bind].
  destruct (divide_after_init pc cx cy cz dx dy dz voxel [] Hinit) as (six & -> & _).
  reflexivity.
Qed.

End CellMore.

(** The voxel of densities 1, with the threshold one half: no density is
    below the threshold. *)
Lemma X9_witness :
  threaded_stages halfQ
    (mkVoxel (@voxel_corners exactQ 0%Q 0%Q 0%Q 1%Q 1%Q 1%Q)
             [1%Q; 1%Q; 1%Q; 1%Q; 1%Q; 1%Q; 1%Q; 1%Q]) [] = Some [].
Proof.
  destruct (X9_same_side_no_triangle halfQ) as [Hside _].
  apply (Hside false). by repeat constructor.
Defined.

(** ** The loops of [main] *)

Section LoopsMore.
Context {FM : FloatModel}.
Variable ISOVALUE : float.

(** A loop whose variable is not moved by [+= step] while the test holds
    has no result, whatever the fuel. *)
Lemma for_float_stuck {S : Type} (fuel : nat) (v to step : float)
    (body : float → S → option S) (s : S) :
  fleb v to = true → fadd v step = v →
  for_float fuel v to step body s = None.
Proof.
  intros Htest Hstuck. revert s.
  induction fuel as [|fuel IH]; intros s; [reflexivity|].
  cbn [for_float]. rewrite Htest.
  destruct (body v s) as [s'|]; [|reflexivity].
  cbn [mbind option_bind]. rewrite Hstuck. apply IH.
Qed.

Lemma for_float_body_fails {S : Type} (fuel : nat) (v to step : float)
    (body : float → S → option S) (s : S) :
  fleb v to = true → body v s = None →
  for_float fuel v to step body s = None.
Proof.
  intros Htest Hbody. destruct fuel as [|fuel]; [reflexivity|].
  cbn [for_float]. by rewrite Htest, Hbody.
Qed.

(** X11: the traversal has no end when the first origin of an axis passes
    the test and adding the cell size does not move it (a size of zero, or
    a size that the rounding of [float] absorbs), the loops around that axis
    being entered: for no amount of fuel does it give a result. *)
Theorem X11_traversal_without_end (pc : PointCloud)
    (min_x min_y min_z max_x max_y max_z dx dy dz : float) :
  let x0 := fsub min_x dx in
  let y0 := fsub min_y dy in
  let z0 := fsub min_z dz in
  fleb z0 max_z = true →
  fadd z0 dz = z0 ∨
  (fleb y0 max_y = true ∧
   (fadd y0 dy = y0 ∨ (fleb x0 max_x = true ∧ fadd x0 dx = x0))) →
  ∀ fuel : nat,
    marching ISOVALUE fuel pc min_x min_y min_z max_x max_y max_z dx dy dz = None.
Proof.
  intros x0 y0 z0 Hz Hstuck fuel. unfold marching. fold x0 y0 z0.
  destruct Hstuck as [Hzs | [Hy [Hys | [Hx Hxs]]]].
  - by apply for_float_stuck.
  - apply for_float_body_fails; [done|]. by apply for_float_stuck.
  - apply for_float_body_fails; [done|].
    apply for_float_body_fails; [done|]. by apply for_float_stuck.
Qed.

End LoopsMore.

(** In binary32, with cells of size 1 and a field of one sample at height
    2^25: the first origin 2^25 - 1 is rounded to 2^25, and 2^25 + 1 is 2^25
    again. *)
Lemma X11_witness :
  @marching binary32 half32 1000
    (mkPointCloud [mkPoint3f (of_int 0) (of_int 0) (of_int 33554432)] [of_int 0])
    (of_int 0) (of_int 0) (of_int 33554432)
    (of_int 0) (of_int 0) (of_int 33554432)
    (of_int 1) (of_int 1) (of_int 1) = None.
Proof.
  apply (@X11_traversal_without_end binary32 half32).
  - reflexivity.
  - left. reflexivity.
Defined.

(** ** Interpolation in exact arithmetic *)

Section InterpolationMore.
Local Open Scope Q_scope.

Lemma between_by_mu (a b t : Q) :
  0 <= t → t <= 1 →
  (a <= b → a <= a + t * (b - a) ∧ a + t * (b - a) <= b) ∧
  (b <= a → b <= a + t * (b - a) ∧ a + t * (b - a) <= a).
Proof. intros Ht0 Ht1. split; intros Hab; split; nra. Qed.

(** X12: the point does not depend on the direction in which the edge is
    taken: with the two ends and their densities exchanged, the result is
    the same point (the edge p31 of a tetrahedron is the edge p13 of its
    neighbour). *)
Theorem X12_interpolation_direction (A B : @Point3f exactQ) (dA dB iso : Q) :
  ¬ dA == dB →
  x (interpolation A B dA dB iso) == x (interpolation B A dB dA iso) ∧
  y (interpolation A B dA dB iso) == y (interpolation B A dB dA iso) ∧
  z (interpolation A B dA dB iso) == z (interpolation B A dB dA iso).
Proof.
  intros Hne. unfold interpolation, mu. cbn [x y z fadd fmul fsub fdiv exactQ].
  split_and!; field; split; intros H; apply Hne; lra.
Qed.

(** X13: on an edge that has one density below the threshold and the other
    not, every coordinate of the point is between the coordinates of the two
    ends: the point is on the edge, inside the cell.  It is the first end
    when the density there is the threshold. *)
Theorem X13_point_on_the_edge (A B : @Point3f exactQ) (dA dB iso : Q) :
  xorb (@fltb exactQ dA iso) (@fltb exactQ dB iso) = true →
  let P := interpolation A B dA dB iso in
  ((x A <= x B → x A <= x P ∧ x P <= x B) ∧ (x B <= x A → x B <= x P ∧ x P <= x A)) ∧
  ((y A <= y B → y A <= y P ∧ y P <= y B) ∧ (y B <= y A → y B <= y P ∧ y P <= y A)) ∧
  ((z A <= z B → z A <= z P ∧ z P <= z B) ∧ (z B <= z A → z B <= z P ∧ z P <= z A)) ∧
  (dA == iso → x P == x A ∧ y P == y A ∧ z P == z A).
Proof.
  intros Hcross P.
  destruct (mu_on_crossing dA dB iso Hcross) as (Hdiv & [Ht0 Ht1] & _).
  subst P. unfold interpolation. cbn [x y z fadd fmul fsub exactQ].
  split_and!; try (by apply between_by_mu).
  intros HdA.
  assert (Hmu : @mu exactQ dA dB iso == 0).
  { unfold mu. cbn [fdiv fsub exactQ]. rewrite HdA. field. rewrite <- HdA. exact Hdiv. }
  rewrite Hmu. split_and!; ring.
Qed.

End InterpolationMore.

(** Densities 0 and 1, threshold one half, on the edge from the origin to
    (1, 2, 3), in the two directions. *)
Lemma X12_witness :
  let A := @mkPoint3f exactQ 0%Q 0%Q 0%Q in
  let B := @mkPoint3f exactQ 1%Q 2%Q 3%Q in
  (x (interpolation A B 0%Q 1%Q halfQ) == x (interpolation B A 1%Q 0%Q halfQ))%Q ∧
  (y (interpolation A B 0%Q 1%Q halfQ) == y (interpolation B A 1%Q 0%Q halfQ))%Q ∧
  (z (interpolation A B 0%Q 1%Q halfQ) == z (interpolation B A 1%Q 0%Q halfQ))%Q.
Proof.
  intros A B. apply (X12_interpolation_direction A B 0%Q 1%Q halfQ).
  intros H. discriminate H.
Defined.

Lemma X13_witness :
  let A := @mkPoint3f exactQ 0%Q 0%Q 0%Q in
  let B := @mkPoint3f exactQ 1%Q 2%Q 3%Q in
  let P := interpolation A B 0%Q 1%Q halfQ in
  (x A <= x P)%Q ∧ (x P <= x B)%Q.
Proof.
  intros A B P.
  destruct (X13_point_on_the_edge A B 0%Q 1%Q halfQ eq_refl) as ([Hx _] & _).
  apply Hx. cbn. discriminate.
Defined.

(** ** The shape of the decomposition *)

Section DecompositionMore.
Context {FM : FloatModel}.

(** X14: the six tetrahedra of a voxel all hold its corners v3 and v5, the
    two ends of one diagonal of the cell; and every corner of the voxel is
    in at least one tetrahedron. *)
Theorem X14_tetrahedra_share_a_diagonal
    (v0 v1 v2 v3 v4 v5 v6 v7 : Point3f) (d0 d1 d2 d3 d4 d5 d6 d7 : float) :
  ∃ six,
    divide_into_six_triangles
      (mkVoxel [v0; v1; v2; v3; v4; v5; v6; v7] [d0; d1; d2; d3; d4; d5; d6; d7]) []
      = Some six ∧
    Forall (λ t, v3 ∈ tet_vertices t ∧ v5 ∈ tet_vertices t) six ∧
    Forall (λ v, Exists (λ t, v ∈ tet_vertices t) six)
           [v0; v1; v2; v3; v4; v5; v6; v7].
Proof.
  eexists. split; [reflexivity|]. split_and!.
  - repeat constructor; apply list_elem_of_In; cbn; tauto.
  - repeat apply Forall_cons_2; [..|apply Forall_nil_2];
      apply Exists_exists.
    + eexists; split; [apply list_elem_of_In; right; right; left; reflexivity|];
        apply list_elem_of_In; cbn; tauto.
    + eexists; split; [apply list_elem_of_In; right; right; right; left; reflexivity|];
        apply list_elem_of_In; cbn; tauto.
    + eexists; split; [apply list_elem_of_In; do 4 right; left; reflexivity|];
        apply list_elem_of_In; cbn; tauto.
    + eexists; split; [apply list_elem_of_In; left; reflexivity|];
        apply list_elem_of_In; cbn; tauto.
    + eexists; split; [apply list_elem_of_In; left; reflexivity|];
        apply list_elem_of_In; cbn; tauto.
    + eexists; split; [apply list_elem_of_In; left; reflexivity|];
        apply list_elem_of_In; cbn; tauto.
    + eexists; split; [apply list_elem_of_In; right; left; reflexivity|];
        apply list_elem_of_In; cbn; tauto.
    + eexists; split; [apply list_elem_of_In; left; reflexivity|];
        apply list_elem_of_In; cbn; tauto.
Qed.

End DecompositionMore.

(** X15: in exact arithmetic, each of the six tetrahedra of the cell of
    origin (cx, cy, cz) and sizes (dx, dy, dz) has the signed volume
    - dx dy dz / 6: the six have the same orientation and the same volume,
    and their volumes add up to the volume of the cell. *)
Theorem X15_tetrahedra_volumes (cx cy cz dx dy dz : Q)
    (d0 d1 d2 d3 d4 d5 d6 d7 : Q) :
  ∃ six,
    divide_into_six_triangles
      (mkVoxel (@voxel_corners exactQ cx cy cz dx dy dz)
               [d0; d1; d2; d3; d4; d5; d6; d7]) []
      = Some six ∧
    length six = 6%nat ∧
    Forall (λ t, ∃ v, volume6 t = Some v ∧ (v == - (dx * dy * dz))%Q) six.
Proof.
  eexists. split; [reflexivity|]. split; [reflexivity|].
  repeat constructor;
    (eexists; split; [reflexivity|];
     unfold det3, minus3; cbn [x y z fadd exactQ]; ring).
Qed.

(** ** The end of the traversal in exact arithmetic *)

Section TraversalEnds.
Local Open Scope Q_scope.

Lemma Qle_bool_false (a b : Q) : b < a → Qle_bool a b = false.
Proof.
  intros Hlt. destruct (Qle_bool a b) eqn:Hle; [|reflexivity].
  apply Qle_bool_iff in Hle. lra.
Qed.

Lemma inject_succ (n : nat) :
  inject_Z (Z.of_nat (S n)) == inject_Z (Z.of_nat n) + 1.
Proof. rewrite Nat2Z.inj_succ. unfold Z.succ. by rewrite inject_Z_plus. Qed.

(** Fuel that is enough for one loop. *)
Lemma enough_fuel (v to step : Q) :
  0 < step → ∃ n : nat, to - v < inject_Z (Z.of_nat n) * step.
Proof.
  intros Hstep. set (q := (to - v) / step).
  exists (Z.to_nat (Qfloor q + 1)).
  assert (Hq : q < inject_Z (Z.of_nat (Z.to_nat (Qfloor q + 1)))).
  { eapply Qlt_le_trans; [apply Qlt_floor|].
    rewrite <- Zle_Qle. lia. }
  assert (Hv : to - v == q * step) by (unfold q; field; lra).
  rewrite Hv. apply Qmult_lt_compat_r; done.
Qed.

Lemma more_fuel (v to step : Q) (n m : nat) :
  0 < step → (n ≤ m)%nat →
  to - v < inject_Z (Z.of_nat n) * step → to - v < inject_Z (Z.of_nat m) * step.
Proof.
  intros Hstep Hnm Hn. eapply Qlt_le_trans; [exact Hn|].
  apply Qmult_le_compat_r; [|lra]. rewrite <- Zle_Qle. lia.
Qed.

Lemma visited_succ (v step : Q) (k : nat) :
  visited v step (Datatypes.S k) = visited (v + step) step k.
Proof. unfold visited. by rewrite Nat.iter_succ_r. Qed.

Lemma visited_linear (v step : Q) (k : nat) :
  visited v step k == v + inject_Z (Z.of_nat k) * step.
Proof.
  induction k as [|k IH].
  - cbn. ring.
  - change (visited v step (Datatypes.S k)) with (visited v step k + step).
    rewrite IH, inject_succ. ring.
Qed.

(** A loop with a positive step, whose body succeeds at every origin that
    passes the test and leaves the state as it was, ends. *)
Lemma for_float_ends {S : Type} (to step : Q) (body : Q → S → option S) (n : nat) :
  0 < step →
  ∀ (v : Q) (s : S),
    (∀ k s', visited v step k <= to → body (visited v step k) s' = Some s') →
    to - v < inject_Z (Z.of_nat n) * step →
    @for_float exactQ S (Datatypes.S n) v to step body s = Some s.
Proof.
  intros Hstep. induction n as [|n IH]; intros v s Hbody Hfuel.
  - cbn [for_float fleb exactQ]. rewrite Qle_bool_false; [done|].
    change (inject_Z (Z.of_nat 0)) with 0 in Hfuel. lra.
  - cbn [for_float]. destruct (@fleb exactQ v to) eqn:Htest; [|done].
    apply Qle_bool_iff in Htest.
    pose proof (Hbody 0%nat s Htest) as Hnow. change (visited v step 0) with v in Hnow.
    rewrite Hnow. cbn [mbind option_bind]. apply IH.
    + intros k s'. rewrite <- visited_succ. apply Hbody.
    + rewrite inject_succ in Hfuel. cbn [fadd exactQ]. lra.
Qed.

Lemma cell_body_defined (ISOVALUE : Q) (pc : @PointCloud exactQ)
    (dx dy dz cx cy cz : Q) (triangles : list Triangle) :
  is_Some (init_voxel_vertices pc empty_voxel cx cy cz dx dy dz) →
  cell_body ISOVALUE pc dx dy dz cx cy cz triangles = Some triangles.
Proof.
  intros [voxel Hinit]. unfold cell_body. rewrite Hinit.
  cbn [mbind option_bind].
  destruct (divide_after_init pc cx cy cz dx dy dz voxel [] Hinit) as (six & -> & _).
  reflexivity.
Qed.

(** X16: in exact arithmetic, with positive cell sizes, the traversal ends
    when the voxel is defined at every origin the three loops visit (from
    min - size on, adding the size, as long as the origin is not beyond
    max): from some amount of fuel on, the result is the empty sequence of
    triangles. *)
Theorem X16_traversal_ends (ISOVALUE : Q) (pc : @PointCloud exactQ)
    (min_x min_y min_z max_x max_y max_z dx dy dz : Q) :
  0 < dx → 0 < dy → 0 < dz →
  (∀ i j k : nat,
     visited (min_x - dx) dx i <= max_x →
     visited (min_y - dy) dy j <= max_y →
     visited (min_z - dz) dz k <= max_z →
     is_Some (init_voxel_vertices pc empty_voxel
                (visited (min_x - dx) dx i) (visited (min_y - dy) dy j)
                (visited (min_z - dz) dz k) dx dy dz)) →
  ∃ fuel : nat, ∀ fuel' : nat, (fuel ≤ fuel')%nat →
    marching ISOVALUE fuel' pc min_x min_y min_z max_x max_y max_z dx dy dz
      = Some [].
Proof.
  intros Hdx Hdy Hdz Hcells.
  destruct (enough_fuel (min_x - dx) max_x dx Hdx) as [nx Hnx].
  destruct (enough_fuel (min_y - dy) max_y dy Hdy) as [ny Hny].
  destruct (enough_fuel (min_z - dz) max_z dz Hdz) as [nz Hnz].
  exists (Datatypes.S (nx + ny + nz)). intros [|m] Hm; [lia|].
  unfold marching. cbn [fsub exactQ].
  apply for_float_ends; [done| |by apply (more_fuel _ _ _ nz); [|lia|]].
  intros k s Hk. apply for_float_ends; [done| |by apply (more_fuel _ _ _ ny); [|lia|]].
  intros j s' Hj. apply for_float_ends; [done| |by apply (more_fuel _ _ _ nx); [|lia|]].
  intros i s'' Hi. by apply cell_body_defined, Hcells.
Qed.

(** The origins of an axis that starts at -1 with the step 1 and are not
    beyond 1/2 are the first two. *)
Lemma two_origins (k : nat) : visited (0 - 1) 1 k <= 1 # 2 → (k < 2)%nat.
Proof.
  rewrite visited_linear. intros Hk.
  destruct k as [|[|k]]; [lia..|]. exfalso.
  rewrite !inject_succ in Hk.
  assert (0 <= inject_Z (Z.of_nat k)) by (rewrite <- (Zle_Qle 0); lia).
  lra.
Qed.

End TraversalEnds.

(** The field of two samples, its bounding box [0, 1/2]^3 and cells of size
    1: the loops visit the eight cells of origins -1 and 0 on each axis, and
    the voxel is defined at each of them. *)
Lemma X16_witness :
  ∃ fuel : nat, ∀ fuel' : nat, (fuel ≤ fuel')%nat →
    @marching exactQ halfQ fuel' (two_samples halfQ 0%Q 0%Q)
      0%Q 0%Q 0%Q (1 # 2)%Q (1 # 2)%Q (1 # 2)%Q 1%Q 1%Q 1%Q = Some [].
Proof.
  apply X16_traversal_ends; [reflexivity..|].
  intros i j k Hi%two_origins Hj%two_origins Hk%two_origins.
  destruct i as [|[|i]]; [| |lia];
    (destruct j as [|[|j]]; [| |lia]);
    (destruct k as [|[|k]]; [| |lia]);
    by eexists.
Defined.

(** ** The reads of the three stages *)

Section Bounds.
Context {FM : FloatModel}.
Variable ISOVALUE : float.

Lemma tetrahedron_rule_is_Some (t : Tetrahedron) :
  is_Some (tetrahedron_rule ISOVALUE t) ↔ (4 ≤ length (tet_density t))%nat.
Proof.
  unfold tetrahedron_rule.
  destruct (tet_density t) as [|d0 [|d1 [|d2 [|d3 ds]]]]; cbn;
    (split; [intros [r Hr]; first [discriminate Hr | lia]
            | intros Hlen; first [lia | by eexists]]).
Qed.

Lemma edge_points_is_Some (t : Tetrahedron) :
  is_Some (edge_points ISOVALUE t) ↔
  (4 ≤ length (tet_vertices t))%nat ∧ (4 ≤ length (tet_density t))%nat.
Proof.
  unfold edge_points, edge_calls.
  destruct (tet_vertices t) as [|v0 [|v1 [|v2 [|v3 vs]]]];
    destruct (tet_density t) as [|d0 [|d1 [|d2 [|d3 ds]]]]; cbn;
    (split; [intros [r Hr]; first [discriminate Hr | lia]
            | intros [Hv Hd]; first [lia | by eexists]]).
Qed.

Lemma triangle_loop_is_Some (todo : list Tetrahedron) (t : nat)
    (rules : list (list Z)) (triangles : list Triangle) :
  (t ≤ length rules)%nat →
  is_Some (triangle_loop ISOVALUE todo t rules triangles) ↔
  (t + length todo ≤ length rules)%nat ∧
  Forall (λ tet, (4 ≤ length (tet_vertices tet))%nat ∧
                 (4 ≤ length (tet_density tet))%nat) todo.
Proof.
  revert t triangles. induction todo as [|tet todo IH]; intros t triangles Ht.
  - cbn. split; [intros _; split; [lia|done] | by eauto].
  - cbn [triangle_loop length]. rewrite Forall_cons, <- edge_points_is_Some.
    destruct (edge_points ISOVALUE tet) as [pts|].
    + cbn [mbind option_bind].
      destruct (rules !! t) as [rule|] eqn:Hrule.
      * cbn [mbind option_bind]. apply lookup_lt_Some in Hrule.
        rewrite IH by lia. split.
        -- intros [Hlen Hall]. split_and!; [lia | by eauto | done].
        -- intros (Hlen & _ & Hall). split; [lia|done].
      * apply lookup_ge_None in Hrule. cbn.
        split; [by intros [? ?] | intros [? _]; lia].
    + cbn. split; [by intros [? ?] | by intros (_ & [? ?] & _)].
Qed.

(** X17: [divide_into_six_triangles] reads the corners up to index 7 of the
    positions and of the densities: it has a result exactly when the voxel
    holds at least eight of each. *)
Theorem X17_decomposition_reads_eight (voxel : Voxel) (acc : list Tetrahedron) :
  is_Some (divide_into_six_triangles voxel acc) ↔
  (8 ≤ length (vox_vertices voxel))%nat ∧ (8 ≤ length (vox_density voxel))%nat.
Proof.
  destruct voxel as [vs ds]. cbn [vox_vertices vox_density].
  destruct vs as [|? [|? [|? [|? [|? [|? [|? [|? ?]]]]]]]];
    destruct ds as [|? [|? [|? [|? [|? [|? [|? [|? ?]]]]]]]];
    (split; [intros [r Hr]; first [discriminate Hr | cbn; lia]
            | intros [Hv Hd]; first [cbn in Hv, Hd; lia | by eexists]]).
Qed.

(** X18: [get_vertice_density] reads four densities of every tetrahedron
    and nothing else of it: it has a result exactly when every tetrahedron
    holds at least four densities, also when the positions are missing. *)
Theorem X18_classifier_reads_four_densities (tets : list Tetrahedron)
    (rules : list (list Z)) :
  is_Some (get_vertice_density ISOVALUE tets rules) ↔
  Forall (λ t, (4 ≤ length (tet_density t))%nat) tets.
Proof.
  unfold get_vertice_density. rewrite rule_loop_mapM.
  transitivity (is_Some (mapM (tetrahedron_rule ISOVALUE) tets)).
  - destruct (mapM _ _); cbn; split; intros [? ?]; by eauto.
  - rewrite mapM_is_Some. apply Forall_proper; [|done].
    intros t. apply tetrahedron_rule_is_Some.
Qed.

(** X19: [make_triangle] has a result exactly when there are at least as
    many rules as tetrahedra and every tetrahedron holds at least four
    positions and four densities; the rules beyond the number of tetrahedra
    are not read. *)
Theorem X19_triangulator_defined (triangles : list Triangle)
    (tets : list Tetrahedron) (rules : list (list Z)) :
  is_Some (make_triangle ISOVALUE triangles tets rules) ↔
  (length tets ≤ length rules)%nat ∧
  Forall (λ tet, (4 ≤ length (tet_vertices tet))%nat ∧
                 (4 ≤ length (tet_density tet))%nat) tets.
Proof.
  unfold make_triangle. rewrite triangle_loop_is_Some by lia. done.
Qed.

End Bounds.

(** A voxel of eight corners and eight densities. *)
Lemma X17_witness :
  is_Some (divide_into_six_triangles
             (mkVoxel (@voxel_corners exactQ 0%Q 0%Q 0%Q 1%Q 1%Q 1%Q)
                      [1%Q; 1%Q; 1%Q; 1%Q; 1%Q; 1%Q; 1%Q; 1%Q]) []).
Proof. apply X17_decomposition_reads_eight. cbn. lia. Defined.

(** A tetrahedron with its four densities and no position. *)
Lemma X18_witness :
  is_Some (get_vertice_density halfQ
             [@mkTetrahedron exactQ [] [0%Q; 1%Q; 1%Q; 1%Q]] []).
Proof.
  apply X18_classifier_reads_four_densities.
  constructor; [cbn; lia | constructor].
Defined.

(** The same tetrahedron has no triangle: its positions are read. *)
Lemma X19_witness :
  ¬ is_Some (make_triangle halfQ []
               [@mkTetrahedron exactQ [] [0%Q; 1%Q; 1%Q; 1%Q]]
               [[1; 1; 1; 0; 0; 0]]).
Proof.
  intros Hsome. apply X19_triangulator_defined in Hsome as [_ Hall].
  apply Forall_cons in Hall as [[Hpos _] _]. cbn in Hpos. lia.
Defined.
